(** * MICA helper scripts: BLAST result comparison and tabular-to-XML conversion

    A shallow embedding of [scripts/compare-blast-results.py] and
    [scripts/convert-blastTab-to-blastXML.py], and the properties of the
    comparison report and of the derived output path.

    Conventions.
    - A Python [dict] from query id to query result is a [gmap string _];
      only the number of hits of a query result is ever read ([len]), so a
      query result is the list of its hits.
    - Python integers are [Z].
    - Python floats are kept behind the interface [PyFloat].  It has two
      instances: exact rationals [Q], over which the general theorems are
      proved, and IEEE binary64 ([PrimFloat]), which is run on the concrete
      scenarios.  A binary64 quotient is the exact quotient rounded to
      nearest, and the literals are 1/10 and 1/5 rounded to nearest, so the
      two instances can only disagree on a test against [0.1] or [0.2] when a
      gold hit list has more than 2^50 entries (this is not proved here).
    - [print] and uncaught exceptions are the effects of the script; they are
      threaded through the monad [Py]: the lines printed so far, and either a
      value or the exception that ended the run. *)

From Stdlib Require Import Strings.Ascii Strings.String ZArith QArith Lia.
From Stdlib Require Import Floats.PrimFloat Floats.SpecFloat Floats.FloatOps.
From Stdlib Require Floats.FloatAxioms.
From Stdlib Require Import Numbers.Cyclic.Int63.Uint63.
From stdpp Require Import gmap strings list fin_maps.

Local Open Scope Z_scope.

(** ** Data *)

(** A hit is identified by the id of the database sequence it matched. *)
Definition Hit : Type := string.

(** [qRes] as a sequence of hits; [len(qRes)] is the number of hits. *)
Abbreviation QueryResult := (list Hit).

(** [parsed = {qRes.id : qRes for qRes in qResultGen}] *)
Abbreviation ResultSet := (gmap string QueryResult).

Definition len {A : Type} (l : list A) : Z := Z.of_nat (length l).

(** The exceptions the comparison can end with. [assert] has no message and
    a division by zero names no operand: neither carries a query id. The last
    constructor stands for an exception raised inside [Bio.SearchIO] (a file
    that cannot be opened or read), given by the name of its class. *)
Inductive exn : Type :=
  | AssertionError
  | ZeroDivisionError
  | KeyError (key : string)
  | External (exception : string).

(** ** Floats *)

Class PyFloat (F : Type) : Type := {
  of_int : Z -> F;            (* float(n), and the coercion of an int operand *)
  fdiv : F -> F -> F;         (* x / y, for y <> 0 *)
  fsub : F -> F -> F;         (* x - y *)
  fgt : F -> F -> bool;       (* x > y *)
  lit_0_1 : F;                (* the literal 0.1 *)
  lit_0_2 : F                 (* the literal 0.2 *)
}.

(** Exact arithmetic. *)
#[export] Instance Q_float : PyFloat Q := {|
  of_int := inject_Z;
  fdiv := Qdiv;
  fsub := Qminus;
  fgt := fun x y => negb (Qle_bool x y);
  lit_0_1 := 1 # 10;
  lit_0_2 := 2 # 10
|}.

(** IEEE binary64, for integers of magnitude below 2^63. *)
Definition float_of_Z (n : Z) : float :=
  if n <? 0 then PrimFloat.opp (PrimFloat.of_uint63 (Uint63.of_Z (- n)))
  else PrimFloat.of_uint63 (Uint63.of_Z n).

#[export] Instance binary64_float : PyFloat float := {|
  of_int := float_of_Z;
  fdiv := PrimFloat.div;
  fsub := PrimFloat.sub;
  fgt := fun x y => PrimFloat.ltb y x;
  lit_0_1 := 0x1.999999999999ap-4%float;
  lit_0_2 := 0x1.999999999999ap-3%float
|}.

(** ** Output and effects *)

(** One constructor per [print] of [analyzeBlastOut], holding the value that
    is formatted into the line. *)
Inductive line (F : Type) : Type :=
  | Queries (n : Z)                 (* "Queries: {}" *)
  | Misses (n : Z)                  (* "Misses: {}" *)
  | TotalGoldHits (n : Z)           (* "Total hits in gold-standard: {}" *)
  | OverallAccuracy (x : F)         (* "Overall accuracy: {}" *)
  | PerfectAccuracy (n : Z)         (* "Queries with perfect accuracy: {}" *)
  | Above90 (n : Z)                 (* "Queries with greater than 90% of hits: {}" *)
  | Above80 (n : Z).                (* "Queries with greater than 80% of hits: {}" *)

Arguments Queries {F} n.
Arguments Misses {F} n.
Arguments TotalGoldHits {F} n.
Arguments OverallAccuracy {F} x.
Arguments PerfectAccuracy {F} n.
Arguments Above90 {F} n.
Arguments Above80 {F} n.

Inductive result (A : Type) : Type :=
  | Ok (a : A)
  | Raise (e : exn).

Arguments Ok {A} a.
Arguments Raise {A} e.

(** A run: what was printed, and how it ended. *)
Definition Py (F A : Type) : Type := list (line F) * result A.

Definition ret {F A : Type} (a : A) : Py F A := ([], Ok a).

Definition bind {F A B : Type} (m : Py F A) (k : A -> Py F B) : Py F B :=
  match m with
  | (out, Ok a) => let (out', r) := k a in (out ++ out', r)
  | (out, Raise e) => (out, Raise e)
  end.

Definition raise {F A : Type} (e : exn) : Py F A := ([], Raise e).

Definition print {F : Type} (l : line F) : Py F unit := ([l], Ok tt).

Definition printed {F A : Type} (m : Py F A) : list (line F) := fst m.

Definition raised {F A : Type} (m : Py F A) : option exn :=
  match snd m with
  | Ok _ => None
  | Raise e => Some e
  end.

Declare Scope py_scope.
Delimit Scope py_scope with py.
Notation "x <- m ;; k" := (bind m (fun x => k))
  (at level 100, m at next level, right associativity) : py_scope.
Notation "m ;; k" := (bind m (fun _ => k))
  (at level 100, right associativity) : py_scope.
Local Open Scope py_scope.

(** [d[k]] *)
Definition getitem {F : Type} (d : ResultSet) (k : string) : Py F QueryResult :=
  match d !! k with
  | Some v => ret v
  | None => raise (KeyError k)
  end.

(** [assert b] *)
Definition assert {F : Type} (b : bool) : Py F unit :=
  if b then ret tt else raise AssertionError.

(** [x / n] with a float [x] and an int [n] *)
Definition truediv {F : Type} `{PyFloat F} (x : F) (n : Z) : Py F F :=
  if n =? 0 then raise ZeroDivisionError else ret (fdiv x (of_int n)).

(** [for x in xs: st = body(st, x)] *)
Fixpoint for_each {F S X : Type} (body : S -> X -> Py F S) (xs : list X) (st : S)
  : Py F S :=
  match xs with
  | [] => ret st
  | x :: xs' => st' <- body st x ;; for_each body xs' st'
  end.

(** ** compare-blast-results.py *)

(** The local variables the loop of [analyzeBlastOut] updates. *)
Record counters : Type := Counters {
  totalMiss : Z;
  totalGoldHits : Z;
  perfectQueries : Z;
  badQueries : Z;
  veryBadQueries : Z
}.

Definition zero_counters : counters := Counters 0 0 0 0 0.

(** [gold.viewkeys() & comp.viewkeys()] *)
Definition intersection (gold comp : ResultSet) : gset string :=
  dom gold ∩ dom comp.

(** The order in which [for qId in intersection] visits a set is left open by
    Python: [qs] is one such order when it lists the set without repetition. *)
Definition iteration_of (s : gset string) (qs : list string) : Prop :=
  qs ≡ₚ elements s.

Section Compare.
Context {F : Type} `{PyFloat F}.

(** One pass of the loop body, lines 28 to 41. *)
Definition visit (gold comp : ResultSet) (st : counters) (qId : string)
  : Py F counters :=
  g <- getitem gold qId ;;
  let goldHits := len g in
  let totalGoldHits' := totalGoldHits st + goldHits in
  g' <- getitem gold qId ;;
  c <- getitem comp qId ;;
  let miss := len g' - len c in
  assert (0 <=? miss) ;;
  let totalMiss' := totalMiss st + miss in
  let perfectQueries' :=
    if miss =? 0 then perfectQueries st + 1 else perfectQueries st in
  missFrac <- truediv (of_int miss) goldHits ;;
  let badQueries' :=
    if fgt missFrac lit_0_1 then badQueries st + 1 else badQueries st in
  let veryBadQueries' :=
    if fgt missFrac lit_0_2 then veryBadQueries st + 1 else veryBadQueries st in
  ret (Counters totalMiss' totalGoldHits' perfectQueries' badQueries' veryBadQueries').

(** Lines 22 to 41: the counters start at 0 and every id is visited. *)
Definition tally (qs : list string) (gold comp : ResultSet) : Py F counters :=
  for_each (visit gold comp) qs zero_counters.

(** Lines 43 to 49. *)
Definition report (n : Z) (st : counters) : Py F unit :=
  print (Queries n) ;;
  print (Misses (totalMiss st)) ;;
  print (TotalGoldHits (totalGoldHits st)) ;;
  ratio <- truediv (of_int (totalMiss st)) (totalGoldHits st) ;;
  print (OverallAccuracy (fsub (of_int 1) ratio)) ;;
  print (PerfectAccuracy (perfectQueries st)) ;;
  print (Above90 (n - badQueries st)) ;;
  print (Above80 (n - veryBadQueries st)).

(** [analyzeBlastOut(gold, comp)] when the loop visits [intersection] in
    the order [qs]; [len(intersection)] is then the length of [qs]. *)
Definition analyzeBlastOut_in (qs : list string) (gold comp : ResultSet)
  : Py F unit :=
  st <- tally qs gold comp ;;
  report (len qs) st.

(** [analyzeBlastOut(gold, comp)], visiting the ids in the order in which
    [elements] lists them. *)
Definition analyzeBlastOut (gold comp : ResultSet) : Py F unit :=
  analyzeBlastOut_in (elements (intersection gold comp)) gold comp.

End Compare.

(** [overallAccuracy m] is the value of the "Overall accuracy" line, when the
    run printed one. *)
Definition overallAccuracy {F A : Type} (m : Py F A) : option F :=
  head (omap (fun l => match l with OverallAccuracy x => Some x | _ => None end)
             (printed m)).

(** ** What one pass of the loop does *)

(** The exception, if any, with which the loop body ends at [qId]. It does
    not depend on the counters. *)
Definition verdict (gold comp : ResultSet) (qId : string) : option exn :=
  match gold !! qId, comp !! qId with
  | None, _ | _, None => Some (KeyError qId)
  | Some g, Some c =>
      if 0 <=? len g - len c
      then if len g =? 0 then Some ZeroDivisionError else None
      else Some AssertionError
  end.

(** [hitCount d q] is [len(d[q])] for a key of [d]. *)
Definition hitCount (d : ResultSet) (qId : string) : Z :=
  match d !! qId with
  | Some r => len r
  | None => 0
  end.

(** [miss] and [missFrac] of the pass at [qId]. *)
Definition missOf (gold comp : ResultSet) (qId : string) : Z :=
  hitCount gold qId - hitCount comp qId.

Definition missFracOf {F : Type} `{PyFloat F} (gold comp : ResultSet) (qId : string) : F :=
  fdiv (of_int (missOf gold comp qId)) (of_int (hitCount gold qId)).

(** The counters after a pass that raises nothing. *)
Definition step {F : Type} `{PyFloat F} (gold comp : ResultSet) (st : counters)
  (qId : string) : counters :=
  Counters (totalMiss st + missOf gold comp qId)
           (totalGoldHits st + hitCount gold qId)
           (if missOf gold comp qId =? 0
            then perfectQueries st + 1 else perfectQueries st)
           (if fgt (missFracOf (F:=F) gold comp qId) lit_0_1
            then badQueries st + 1 else badQueries st)
           (if fgt (missFracOf (F:=F) gold comp qId) lit_0_2
            then veryBadQueries st + 1 else veryBadQueries st).

(** Sum of an integer quantity over the visited ids. *)
Definition sum_over (f : string -> Z) (qs : list string) : Z :=
  foldr (fun q acc => f q + acc) 0 qs.

Definition ind (b : bool) : Z := if b then 1 else 0.

(** The three tests of the loop body at [q]. *)
Definition isPerfect (gold comp : ResultSet) (q : string) : bool :=
  missOf gold comp q =? 0.
Definition isBad {F : Type} `{PyFloat F} (gold comp : ResultSet) (q : string) : bool :=
  fgt (missFracOf (F:=F) gold comp q) lit_0_1.
Definition isVeryBad {F : Type} `{PyFloat F} (gold comp : ResultSet) (q : string) : bool :=
  fgt (missFracOf (F:=F) gold comp q) lit_0_2.

(** The accuracy that is printed for the counters [st]. *)
Definition accuracy {F : Type} `{PyFloat F} (st : counters) : F :=
  fsub (of_int 1) (fdiv (of_int (totalMiss st)) (of_int (totalGoldHits st))).

(** The seven lines of a complete report. *)
Definition full_report {F : Type} (n m t : Z) (a : F) (p x y : Z) : list (line F) :=
  [Queries n; Misses m; TotalGoldHits t; OverallAccuracy a;
   PerfectAccuracy p; Above90 x; Above80 y].

(** The three lines printed before the accuracy is computed. *)
Definition report_prefix {F : Type} (n m t : Z) : list (line F) :=
  [Queries n; Misses m; TotalGoldHits t].

(** ** convert-blastTab-to-blastXML.py *)

Module ConvertTab.

(** [s.split(sep)] for a separator of one character. *)
Fixpoint split (sep : ascii) (s : string) : list string :=
  match s with
  | EmptyString => [EmptyString]
  | String c r =>
      if Ascii.eqb c sep then EmptyString :: split sep r
      else match split sep r with
           | piece :: pieces => String c piece :: pieces
           | [] => [String c EmptyString]
           end
  end.

(** What [main] does: one call of [SearchIO.convert], or the usage line. *)
Inductive action : Type :=
  | Convert (inFile inFormat outFile outFormat : string)
  | Usage.

(** [filenameRoot = args[1].split(".")[0]] *)
Definition filenameRoot (path : string) : string :=
  hd EmptyString (split "." path).

Definition main (args : list string) : action :=
  match args with
  | [_; inFile] =>
      let filenameXML := String.append (filenameRoot inFile) ".xml" in
      Convert inFile "blast-tab" filenameXML "blast-xml"
  | [_; inFile; outFile] =>
      let filenameXML := outFile in
      Convert inFile "blast-tab" filenameXML "blast-xml"
  | _ => Usage
  end.

(** The output path [main] passes to [SearchIO.convert]. *)
Definition outFileOf (a : action) : option string :=
  match a with
  | Convert _ _ out _ => Some out
  | Usage => None
  end.

Fixpoint has_dot (s : string) : bool :=
  match s with
  | EmptyString => false
  | String c r => Ascii.eqb c "." || has_dot r
  end.

(** The path the interface description asks for: the input path with its
    file extension, the part from the last dot on, removed. A path without
    a dot has no extension. *)
Fixpoint strip_extension (path : string) : string :=
  match path with
  | EmptyString => EmptyString
  | String c r =>
      if Ascii.eqb c "." && negb (has_dot r) then EmptyString
      else String c (strip_extension r)
  end.

Definition derived_by_description (path : string) : string :=
  String.append (strip_extension path) ".xml".

End ConvertTab.

(** ** Sample inputs *)

Definition hits (n : nat) : QueryResult := replicate n "hit"%string.

(** gold = {Q1: 10 hits, Q2: 4 hits}, candidate = {Q1: 9 hits, Q2: 4 hits} *)
Definition gold_10_4 : ResultSet := {[ "Q1"%string := hits 10; "Q2"%string := hits 4 ]}.
Definition comp_9_4 : ResultSet := {[ "Q1"%string := hits 9; "Q2"%string := hits 4 ]}.

(** One query, named [q], with [n] hits. *)
Definition single (q : string) (n : nat) : ResultSet := {[ q := hits n ]}.

(** ** The command line of compare-blast-results.py *)

(** What the script writes to standard output: a line of text, or one of the
    lines of the report. *)
Inductive stdout (F : Type) : Type :=
  | Text (s : string)
  | Report (l : line F).

Arguments Text {F} s.
Arguments Report {F} l.

(** A run of the script: [Py] with the text lines added. *)
Definition Script (F A : Type) : Type := list (stdout F) * result A.

Definition ret_s {F A : Type} (a : A) : Script F A := ([], Ok a).

Definition bind_s {F A B : Type} (m : Script F A) (k : A -> Script F B) : Script F B :=
  match m with
  | (out, Ok a) => let (out', r) := k a in (out ++ out', r)
  | (out, Raise e) => (out, Raise e)
  end.

(** [print(s)] *)
Definition say {F : Type} (s : string) : Script F unit := ([Text s], Ok tt).

(** A call of a function that prints report lines only. *)
Definition lift {F A : Type} (m : Py F A) : Script F A :=
  (Report <$> fst m, snd m).

Definition said {F A : Type} (m : Script F A) : list (stdout F) := fst m.

Definition ended {F A : Type} (m : Script F A) : option exn :=
  match snd m with
  | Ok _ => None
  | Raise e => Some e
  end.

Declare Scope script_scope.
Delimit Scope script_scope with script.
Notation "x <- m ;; k" := (bind_s m (fun x => k))
  (at level 100, m at next level, right associativity) : script_scope.
Notation "m ;; k" := (bind_s m (fun _ => k))
  (at level 100, right associativity) : script_scope.

(** [s[-k:]] for a positive [k]: the last [k] characters, or all of [s] when
    it has fewer. *)
Definition last_chars (k : nat) (s : string) : string :=
  let cs := list_ascii_of_string s in
  string_of_list_ascii (drop (length cs - k) cs).

(** The format [parseBlastOutFile] hands to the parser for a file name, read
    from its last three characters; [None] when it refuses the name. *)
Definition filetype (filename : string) : option string :=
  if String.eqb (last_chars 3 filename) "xml" then Some "blast-xml"%string
  else if String.eqb (last_chars 3 filename) "txt" then Some "blast-tab"%string
  else None.

(** [{qRes.id : qRes for qRes in qResultGen}]: the records are entered in the
    order in which the parser yields them, a later one replacing an earlier
    one with the same id. A record is given by its id and its hits. *)
Definition dict_of (qResultGen : list (string * QueryResult)) : ResultSet :=
  foldl (fun parsed qRes => <[qRes.1 := qRes.2]> parsed) ∅ qResultGen.

(** Line 13: the comprehension runs through the generator; an exception of
    the parser ends it, and nothing is bound. *)
Definition comprehension {F : Type} (qResultGen : result (list (string * QueryResult)))
  : Script F ResultSet :=
  match qResultGen with
  | Ok qResults => ret_s (dict_of qResults)
  | Raise e => ([], Raise e)
  end.

Module CompareBlast.

Section Script.
Context {F : Type} `{PyFloat F}.

(** [SearchIO.parse(filename, format)], by what comes of running through the
    generator it returns: the sequence of the query results it yields, or the
    exception it raises on the way. *)
Variable SearchIO_parse : string -> string -> result (list (string * QueryResult)).

(** The order in which the interpreter visits a set. *)
Variable set_order : gset string -> list string.

Local Open Scope script_scope.

Definition parseBlastOutFile (filename : string) : Script F ResultSet :=
  qResultGen <-
    (if String.eqb (last_chars 3 filename) "xml"
     then ret_s (SearchIO_parse filename "blast-xml")
     else if String.eqb (last_chars 3 filename) "txt"
     then ret_s (SearchIO_parse filename "blast-tab")
     else (say "Unrecognized filetype." ;;
           lift (assert false) ;;
           ret_s (Ok []))) ;;
  parsed <- comprehension qResultGen ;;
  say (String.append "Parsed " filename) ;;
  ret_s parsed.

Definition main (args : list string) : Script F unit :=
  match args with
  | [_; goldFile; compFile] =>
      gold <- parseBlastOutFile goldFile ;;
      comp <- parseBlastOutFile compFile ;;
      lift (analyzeBlastOut_in (set_order (intersection gold comp)) gold comp)
  | _ => say "Usage: [gold-standard] [comparison]"
  end.

End Script.

End CompareBlast.

(** A parser for the sample runs: gold.xml holds Q1 with 10 hits and Q2 with
    4, missing.xml cannot be opened, every other file holds Q1 with 9 hits
    and Q2 with 4. *)
Definition sample_parse (filename format : string) : result (list (string * QueryResult)) :=
  if String.eqb filename "gold.xml"
  then Ok [("Q1"%string, hits 10); ("Q2"%string, hits 4)]
  else if String.eqb filename "missing.xml"
  then Raise (External "IOError")
  else Ok [("Q1"%string, hits 9); ("Q2"%string, hits 4)].

(** [".".join(pieces)] *)
Fixpoint join_dot (pieces : list string) : string :=
  match pieces with
  | [] => EmptyString
  | [piece] => piece
  | piece :: rest => String.append piece (String "." (join_dot rest))
  end.

(** * Facts about the loop *)

Section Step.
Context {F : Type} `{PyFloat F}.

Lemma visit_verdict gold comp st qId :
  visit (F:=F) gold comp st qId =
    match verdict gold comp qId with
    | Some e => ([], Raise e)
    | None => ([], Ok (step gold comp st qId))
    end.
Proof.
  unfold visit, verdict, step, missFracOf, missOf, hitCount, getitem.
  destruct (gold !! qId) as [g|]; [|reflexivity].
  destruct (comp !! qId) as [c|]; [|reflexivity].
  cbn. unfold assert, truediv.
  destruct (0 <=? len g - len c); [|reflexivity].
  cbn. destruct (len g =? 0); reflexivity.
Qed.

(** The loop prints nothing. *)
Lemma for_each_visit_printed gold comp qs st :
  printed (for_each (visit (F:=F) gold comp) qs st) = [].
Proof.
  revert st. induction qs as [|q qs IH]; intros st; [reflexivity|].
  cbn. rewrite visit_verdict.
  destruct (verdict gold comp q); [reflexivity|].
  cbn. specialize (IH (step gold comp st q)).
  destruct (for_each _ qs _) as [out r]. cbn in IH. subst out. reflexivity.
Qed.

(** The loop goes through exactly when no id has a verdict, and the
    counters are then those of [step] folded over the ids. *)
Lemma for_each_visit_ok gold comp qs st :
  Forall (fun q => verdict gold comp q = None) qs ->
  for_each (visit (F:=F) gold comp) qs st = ([], Ok (foldl (step gold comp) st qs)).
Proof.
  intros Hall. revert st.
  induction Hall as [|q qs Hq _ IH]; intros st; [reflexivity|].
  cbn. rewrite visit_verdict, Hq. cbn. rewrite IH. reflexivity.
Qed.

(** It stops at the first id that has a verdict, with that exception. *)
Lemma for_each_visit_raise gold comp pre q post e st :
  Forall (fun q => verdict gold comp q = None) pre ->
  verdict gold comp q = Some e ->
  for_each (visit (F:=F) gold comp) (pre ++ q :: post) st = ([], Raise e).
Proof.
  intros Hpre Hq. revert st.
  induction Hpre as [|p pre Hp _ IH]; intros st; cbn.
  - rewrite visit_verdict, Hq. reflexivity.
  - rewrite visit_verdict, Hp. cbn. rewrite IH. reflexivity.
Qed.

End Step.

(** Every list of ids splits at its first id with a verdict, if there is one. *)
Lemma first_verdict gold comp (qs : list string) :
  Forall (fun q => verdict gold comp q = None) qs \/
  exists pre q post e,
    qs = pre ++ q :: post /\
    Forall (fun q => verdict gold comp q = None) pre /\
    verdict gold comp q = Some e.
Proof.
  induction qs as [|q qs IH]; [left; constructor|].
  destruct (verdict gold comp q) as [e|] eqn:Hq.
  - right. exists [], q, qs, e. repeat split; [constructor | exact Hq].
  - destruct IH as [Hall | (pre & q' & post & e & -> & Hpre & Hq')].
    + left. constructor; assumption.
    + right. exists (q :: pre), q', post, e.
      repeat split; [constructor; assumption | exact Hq'].
Qed.

(** * Sums over the visited ids *)

Lemma sum_over_cons f q qs : sum_over f (q :: qs) = f q + sum_over f qs.
Proof. reflexivity. Qed.

Lemma sum_over_perm f qs qs' : qs ≡ₚ qs' -> sum_over f qs = sum_over f qs'.
Proof.
  induction 1 as [|q qs qs' _ IH|p q qs|qs1 qs2 qs3 _ IH1 _ IH2].
  - reflexivity.
  - rewrite !sum_over_cons, IH. reflexivity.
  - rewrite !sum_over_cons. lia.
  - congruence.
Qed.

Lemma sum_over_le (P : string -> Prop) f g qs :
  Forall P qs -> (forall q, P q -> f q <= g q) -> sum_over f qs <= sum_over g qs.
Proof.
  intros Hall Hle. induction Hall as [|q qs Hq _ IH]; [reflexivity|].
  rewrite !sum_over_cons. specialize (Hle q Hq). lia.
Qed.

Lemma sum_over_eq (P : string -> Prop) f g qs :
  Forall P qs -> (forall q, P q -> f q = g q) -> sum_over f qs = sum_over g qs.
Proof.
  intros Hall Heq. induction Hall as [|q qs Hq _ IH]; [reflexivity|].
  rewrite !sum_over_cons, IH, (Heq q Hq). reflexivity.
Qed.

Lemma sum_over_plus f g qs :
  sum_over (fun q => f q + g q) qs = sum_over f qs + sum_over g qs.
Proof.
  induction qs as [|q qs IH]; [reflexivity|].
  rewrite !sum_over_cons, IH. lia.
Qed.

Lemma sum_over_const c qs : sum_over (fun _ => c) qs = c * len qs.
Proof.
  unfold len. induction qs as [|q qs IH]; [cbn; lia|].
  rewrite sum_over_cons, IH. cbn [length]. lia.
Qed.

Lemma sum_over_zero (P : string -> Prop) f qs :
  Forall P qs -> (forall q, P q -> 0 <= f q) ->
  sum_over f qs = 0 <-> Forall (fun q => f q = 0) qs.
Proof.
  intros Hall Hpos. induction Hall as [|q qs Hq Hall IH].
  - split; [constructor | reflexivity].
  - rewrite sum_over_cons, Forall_cons.
    assert (0 <= sum_over f qs).
    { replace 0 with (sum_over (fun _ => 0) qs) by (rewrite sum_over_const; lia).
      apply (sum_over_le P _ _ _ Hall). exact Hpos. }
    specialize (Hpos q Hq). split.
    + intros Hs. split; [lia|]. apply IH. lia.
    + intros [Hf Hrest]. apply IH in Hrest. lia.
Qed.

Lemma hitCount_nonneg (d : ResultSet) (q : string) : 0 <= hitCount d q.
Proof. unfold hitCount, len. destruct (d !! q); lia. Qed.

(** * The counters as sums *)

Section Closed.
Context {F : Type} `{PyFloat F}.

Lemma foldl_step gold comp qs st :
  foldl (step (F:=F) gold comp) st qs =
    Counters (totalMiss st + sum_over (missOf gold comp) qs)
             (totalGoldHits st + sum_over (hitCount gold) qs)
             (perfectQueries st + sum_over (fun q => ind (isPerfect gold comp q)) qs)
             (badQueries st + sum_over (fun q => ind (isBad (F:=F) gold comp q)) qs)
             (veryBadQueries st + sum_over (fun q => ind (isVeryBad (F:=F) gold comp q)) qs).
Proof.
  revert st. induction qs as [|q qs IH]; intros st.
  - destruct st. cbn. f_equal; lia.
  - cbn [foldl]. rewrite IH, !sum_over_cons. unfold step, isPerfect, isBad, isVeryBad.
    cbn [totalMiss totalGoldHits perfectQueries badQueries veryBadQueries].
    f_equal; try lia.
    + destruct (missOf gold comp q =? 0); cbn [ind]; lia.
    + destruct (fgt _ lit_0_1); cbn [ind]; lia.
    + destruct (fgt _ lit_0_2); cbn [ind]; lia.
Qed.

End Closed.

(** * When a pass raises *)

Lemma verdict_None gold comp q :
  verdict gold comp q = None <->
  q ∈ intersection gold comp /\
  0 < hitCount gold q /\ 0 <= hitCount comp q <= hitCount gold q.
Proof.
  unfold verdict, intersection, hitCount, len.
  rewrite elem_of_intersection, !elem_of_dom.
  destruct (gold !! q) as [g|], (comp !! q) as [c|]; cbn;
    try (split; [discriminate | intros [[[? ?] [? ?]] _]; discriminate]).
  destruct (0 <=? _) eqn:Hm; [destruct (_ =? 0) eqn:Hg|].
  - split; [discriminate|]. intros (_ & ? & _). lia.
  - split; [|reflexivity]. intros _. split; [split; eexists; reflexivity|]. lia.
  - split; [discriminate|]. intros (_ & _ & ?). lia.
Qed.

(** On the ids of the intersection the lookups succeed: a pass raises only
    at the assertion or at the division. *)
Lemma verdict_in_scope gold comp q :
  q ∈ intersection gold comp ->
  verdict gold comp q =
    if 0 <=? missOf gold comp q
    then if hitCount gold q =? 0 then Some ZeroDivisionError else None
    else Some AssertionError.
Proof.
  unfold intersection. rewrite elem_of_intersection, !elem_of_dom.
  intros [[g Hg] [c Hc]]. unfold verdict, missOf, hitCount. rewrite Hg, Hc. reflexivity.
Qed.

Lemma iteration_of_elem s qs q : iteration_of s qs -> q ∈ qs <-> q ∈ s.
Proof. unfold iteration_of. intros ->. apply elem_of_elements. Qed.

Lemma iteration_of_len s qs : iteration_of s qs -> len qs = Z.of_nat (size s).
Proof. unfold iteration_of, len. intros ->. reflexivity. Qed.

Lemma iteration_of_empty s qs : iteration_of s qs -> s = ∅ -> qs = [].
Proof.
  unfold iteration_of. intros Hp ->. rewrite elements_empty in Hp.
  apply Permutation_nil_r in Hp. exact Hp.
Qed.

(** * The report *)

Section Report.
Context {F : Type} `{PyFloat F}.

Lemma report_cases n st :
  report (F:=F) n st =
    if totalGoldHits st =? 0
    then (report_prefix n (totalMiss st) (totalGoldHits st), Raise ZeroDivisionError)
    else (full_report n (totalMiss st) (totalGoldHits st) (accuracy st)
            (perfectQueries st) (n - badQueries st) (n - veryBadQueries st), Ok tt).
Proof.
  unfold report, truediv, accuracy.
  destruct (totalGoldHits st =? 0); reflexivity.
Qed.

(** The whole function, by whether some pass raises. *)
Lemma analyzeBlastOut_in_ok qs gold comp :
  Forall (fun q => verdict gold comp q = None) qs ->
  analyzeBlastOut_in (F:=F) qs gold comp =
    report (len qs) (foldl (step (F:=F) gold comp) zero_counters qs).
Proof.
  intros Hall. unfold analyzeBlastOut_in, tally.
  rewrite for_each_visit_ok by exact Hall. unfold bind.
  destruct (report (len qs) _) as [out r]. reflexivity.
Qed.

Lemma analyzeBlastOut_in_raise pre q post e gold comp :
  Forall (fun q => verdict gold comp q = None) pre ->
  verdict gold comp q = Some e ->
  analyzeBlastOut_in (F:=F) (pre ++ q :: post) gold comp = ([], Raise e).
Proof.
  intros Hpre Hq. unfold analyzeBlastOut_in, tally.
  rewrite (for_each_visit_raise gold comp pre q post e _ Hpre Hq). reflexivity.
Qed.

End Report.

Section Outcomes.
Context {F : Type} `{PyFloat F}.

(** Either every pass goes through and the report phase runs on the folded
    counters, or the run ends, before anything is printed, with the
    exception of some visited id. *)
Lemma analyzeBlastOut_in_cases qs gold comp :
  (Forall (fun q => verdict gold comp q = None) qs /\
   tally (F:=F) qs gold comp = ([], Ok (foldl (step (F:=F) gold comp) zero_counters qs)) /\
   analyzeBlastOut_in (F:=F) qs gold comp =
     report (len qs) (foldl (step (F:=F) gold comp) zero_counters qs)) \/
  (exists q e, q ∈ qs /\ verdict gold comp q = Some e /\
   tally (F:=F) qs gold comp = ([], Raise e) /\
   analyzeBlastOut_in (F:=F) qs gold comp = ([], Raise e)).
Proof.
  destruct (first_verdict gold comp qs)
    as [Hall | (pre & q & post & e & -> & Hpre & Hq)].
  - left. split; [exact Hall|]. split.
    + apply for_each_visit_ok, Hall.
    + apply analyzeBlastOut_in_ok, Hall.
  - right. exists q, e. split; [|split; [exact Hq|split]].
    + apply elem_of_app. right. apply elem_of_cons. left. reflexivity.
    + apply for_each_visit_raise; assumption.
    + apply analyzeBlastOut_in_raise; assumption.
Qed.

(** A visited id with a verdict ends the run in the loop; over the ids of
    the intersection the exception is one of the two the body can raise. *)
Lemma analyzeBlastOut_in_fails qs gold comp q e0 :
  iteration_of (intersection gold comp) qs ->
  q ∈ intersection gold comp ->
  verdict gold comp q = Some e0 ->
  exists e q', q' ∈ intersection gold comp /\ verdict gold comp q' = Some e /\
    (e = AssertionError \/ e = ZeroDivisionError) /\
    analyzeBlastOut_in (F:=F) qs gold comp = ([], Raise e).
Proof.
  intros Hit Hq Hv.
  destruct (analyzeBlastOut_in_cases qs gold comp)
    as [(Hall & _) | (q' & e & Hin & Hq' & _ & Hrun)].
  - rewrite Forall_forall in Hall.
    rewrite (Hall q) in Hv; [discriminate|].
    apply (iteration_of_elem _ _ _ Hit), Hq.
  - apply (iteration_of_elem _ _ _ Hit) in Hin.
    exists e, q'. repeat split; try assumption.
    rewrite (verdict_in_scope _ _ _ Hin) in Hq'.
    destruct (0 <=? _); [destruct (_ =? 0)|]; inversion Hq'; auto.
Qed.

(** Every pass that goes through adds at least one gold hit. *)
Lemma len_le_gold_total gold comp qs :
  Forall (fun q => verdict gold comp q = None) qs ->
  len qs <= sum_over (hitCount gold) qs.
Proof.
  intros Hall.
  replace (len qs) with (sum_over (fun _ => 1) qs)
    by (rewrite sum_over_const; lia).
  apply (sum_over_le _ _ _ _ Hall).
  intros q Hq. apply verdict_None in Hq. lia.
Qed.

End Outcomes.

(** * The end-to-end scenario *)

(** C1. For gold = {Q1: 10 hits, Q2: 4 hits} and candidate = {Q1: 9 hits,
    Q2: 4 hits} the comparison raises nothing and prints: 2 queries, 1 miss,
    14 gold hits, accuracy 13/14 (0.9285714285714286 in binary64), 1 perfect
    query, 2 queries above 90% and 2 above 80%, in either visiting order.
    Q1 misses exactly a tenth of its gold hits and is not counted as bad:
    1/10 is not greater than the literal 0.1, in exact arithmetic and in
    binary64 alike. *)
Theorem scenario_10_4_against_9_4 :
  analyzeBlastOut (F:=Q) gold_10_4 comp_9_4
    = (full_report 2 1 14 (13 # 14) 1 2 2, Ok tt) /\
  analyzeBlastOut_in (F:=Q) ["Q2"; "Q1"]%string gold_10_4 comp_9_4
    = (full_report 2 1 14 (13 # 14) 1 2 2, Ok tt) /\
  analyzeBlastOut (F:=float) gold_10_4 comp_9_4
    = (full_report 2 1 14 0x1.db6db6db6db6ep-1%float 1 2 2, Ok tt) /\
  analyzeBlastOut_in (F:=float) ["Q2"; "Q1"]%string gold_10_4 comp_9_4
    = (full_report 2 1 14 0x1.db6db6db6db6ep-1%float 1 2 2, Ok tt) /\
  missOf gold_10_4 comp_9_4 "Q1" = 1 /\
  hitCount gold_10_4 "Q1" = 10 /\
  isBad (F:=Q) gold_10_4 comp_9_4 "Q1" = false /\
  isBad (F:=float) gold_10_4 comp_9_4 "Q1" = false.
Proof. repeat split; vm_compute; reflexivity. Qed.

(** * Failing runs *)

(** C2, as stated, fails: with one shared query whose gold and candidate hit
    lists are both empty, the run ends at the division that computes the miss
    fraction, before any line is printed. *)
Lemma empty_gold_hits_counterexample :
  analyzeBlastOut (F:=Q) (single "Q1" 0) (single "Q1" 0)
    = ([], Raise ZeroDivisionError) /\
  analyzeBlastOut (F:=float) (single "Q1" 0) (single "Q1" 0)
    = ([], Raise ZeroDivisionError) /\
  raised (visit (F:=Q) (single "Q1" 0) (single "Q1" 0) zero_counters "Q1")
    = Some ZeroDivisionError.
Proof. repeat split; vm_compute; reflexivity. Qed.

(** C2, amended. At a shared query whose gold hit list is empty the loop body
    raises, whatever the counters: [ZeroDivisionError] at the miss-fraction
    division when the candidate has no hits for it either, [AssertionError]
    when it has some. The comparison then ends with one of these two
    exceptions and prints nothing. *)
Theorem empty_gold_hits_raise {F : Type} `{PyFloat F}
    (gold comp : ResultSet) (qs : list string) (q : string) :
  iteration_of (intersection gold comp) qs ->
  q ∈ intersection gold comp ->
  gold !! q = Some [] ->
  (forall st, visit (F:=F) gold comp st q =
     ([], Raise (if hitCount comp q =? 0 then ZeroDivisionError else AssertionError))) /\
  exists e, analyzeBlastOut_in (F:=F) qs gold comp = ([], Raise e) /\
            (e = AssertionError \/ e = ZeroDivisionError).
Proof.
  intros Hit Hq Hg.
  assert (Hv : verdict gold comp q =
               Some (if hitCount comp q =? 0 then ZeroDivisionError else AssertionError)).
  { rewrite (verdict_in_scope _ _ _ Hq). unfold missOf.
    assert (Hz : hitCount gold q = 0) by (unfold hitCount; rewrite Hg; reflexivity).
    assert (Hc : 0 <= hitCount comp q)
      by (unfold hitCount, len; destruct (comp !! q); lia).
    rewrite Hz. cbn [Z.eqb].
    destruct (hitCount comp q =? 0) eqn:Hc0.
    - apply Z.eqb_eq in Hc0. rewrite Hc0. reflexivity.
    - apply Z.eqb_neq in Hc0.
      destruct (0 <=? 0 - hitCount comp q) eqn:Hm; [|reflexivity].
      apply Z.leb_le in Hm. lia. }
  split.
  - intros st. rewrite visit_verdict, Hv. reflexivity.
  - destruct (analyzeBlastOut_in_fails qs gold comp q _ Hit Hq Hv)
      as (e & _ & _ & _ & He & Hrun).
    exists e. split; assumption.
Qed.

Lemma empty_gold_hits_raise_witness :
  exists e, analyzeBlastOut (F:=Q) (single "Q1" 0) (single "Q1" 2) = ([], Raise e) /\
            (e = AssertionError \/ e = ZeroDivisionError).
Proof.
  apply (empty_gold_hits_raise (F:=Q) (single "Q1" 0) (single "Q1" 2)
           (elements (intersection (single "Q1" 0) (single "Q1" 2))) "Q1").
  - unfold iteration_of. reflexivity.
  - vm_compute. reflexivity.
  - vm_compute. reflexivity.
Defined.

(** C3, as stated, fails: for gold = {} and candidate = {Q1: 3 hits} the run
    prints three lines, "Queries: 0", "Misses: 0" and "Total hits in
    gold-standard: 0", and then ends with the [ZeroDivisionError] of the
    accuracy division. Lines were printed, and the exception is the one every
    division by zero raises, not one that names the missing overlap. *)
Lemma no_overlap_counterexample :
  analyzeBlastOut (F:=Q) ∅ (single "Q1" 3)
    = ([Queries 0; Misses 0; TotalGoldHits 0], Raise ZeroDivisionError) /\
  printed (analyzeBlastOut (F:=Q) ∅ (single "Q1" 3)) <> [] /\
  analyzeBlastOut (F:=float) ∅ (single "Q1" 3)
    = ([Queries 0; Misses 0; TotalGoldHits 0], Raise ZeroDivisionError).
Proof.
  split; [vm_compute; reflexivity|].
  split; [vm_compute; discriminate | vm_compute; reflexivity].
Qed.

(** C3, amended. When the two result sets share no query id, the comparison
    prints the three lines "Queries: 0", "Misses: 0", "Total hits in
    gold-standard: 0" and then ends with [ZeroDivisionError]; no accuracy
    line is printed. *)
Theorem no_overlap_raises {F : Type} `{PyFloat F}
    (gold comp : ResultSet) (qs : list string) :
  dom gold ## dom comp ->
  iteration_of (intersection gold comp) qs ->
  analyzeBlastOut_in (F:=F) qs gold comp
    = (report_prefix 0 0 0, Raise ZeroDivisionError) /\
  overallAccuracy (analyzeBlastOut_in (F:=F) qs gold comp) = None.
Proof.
  intros Hdisj Hit.
  assert (Hqs : qs = []).
  { apply (iteration_of_empty _ _ Hit). unfold intersection.
    apply disjoint_intersection_L, Hdisj. }
  subst qs. split; reflexivity.
Qed.

Lemma no_overlap_raises_witness :
  analyzeBlastOut (F:=float) (single "Q1" 2) (single "Q2" 2)
    = (report_prefix 0 0 0, Raise ZeroDivisionError) /\
  overallAccuracy (analyzeBlastOut (F:=float) (single "Q1" 2) (single "Q2" 2)) = None.
Proof.
  apply (no_overlap_raises (F:=float) (single "Q1" 2) (single "Q2" 2)
           (elements (intersection (single "Q1" 2) (single "Q2" 2)))).
  - unfold single. rewrite !dom_singleton_L. apply disjoint_singleton_l.
    rewrite elem_of_singleton. discriminate.
  - unfold iteration_of. reflexivity.
Defined.

(** C4, as stated, fails: for gold = {Q1: 5 hits} and candidate = {Q1: 6
    hits} the run ends with a bare [AssertionError]. The outcome is the one
    obtained when the offending query is called Q2 instead: nothing in it
    identifies the query. When a shared query without hits on either side is
    visited first, the exception is not even the assertion's. *)
Lemma candidate_exceeds_gold_counterexample :
  analyzeBlastOut (F:=Q) (single "Q1" 5) (single "Q1" 6) = ([], Raise AssertionError) /\
  analyzeBlastOut (F:=Q) (single "Q2" 5) (single "Q2" 6)
    = analyzeBlastOut (F:=Q) (single "Q1" 5) (single "Q1" 6) /\
  iteration_of (intersection (<["Q0"%string := hits 0]> (single "Q1" 5))
                             (<["Q0"%string := hits 0]> (single "Q1" 6)))
               ["Q0"; "Q1"]%string /\
  analyzeBlastOut_in (F:=Q) ["Q0"; "Q1"]%string
      (<["Q0"%string := hits 0]> (single "Q1" 5))
      (<["Q0"%string := hits 0]> (single "Q1" 6))
    = ([], Raise ZeroDivisionError).
Proof.
  split; [vm_compute; reflexivity|]. split; [vm_compute; reflexivity|].
  split; [|vm_compute; reflexivity].
  unfold iteration_of.
  change (elements (intersection (<["Q0"%string := hits 0]> (single "Q1" 5))
                                 (<["Q0"%string := hits 0]> (single "Q1" 6))))
    with ["Q1"; "Q0"]%string.
  apply Permutation_swap.
Qed.

(** C4, amended. At a shared query for which the candidate has more hits than
    gold the loop body raises [AssertionError], whatever the counters. The
    comparison then ends in the loop, with nothing printed: with
    [AssertionError] or, when a shared query with no gold hits was visited
    before, possibly with [ZeroDivisionError]; if every shared query has a
    gold hit it is [AssertionError]. No exception carries a query id. *)
Theorem candidate_exceeds_gold_raises {F : Type} `{PyFloat F}
    (gold comp : ResultSet) (qs : list string) (q : string) :
  iteration_of (intersection gold comp) qs ->
  q ∈ intersection gold comp ->
  hitCount gold q < hitCount comp q ->
  (forall st, visit (F:=F) gold comp st q = ([], Raise AssertionError)) /\
  exists e, analyzeBlastOut_in (F:=F) qs gold comp = ([], Raise e) /\
            (e = AssertionError \/ e = ZeroDivisionError) /\
            ((forall q', q' ∈ intersection gold comp -> hitCount gold q' <> 0) ->
             e = AssertionError).
Proof.
  intros Hit Hq Hlt.
  assert (Hv : verdict gold comp q = Some AssertionError).
  { rewrite (verdict_in_scope _ _ _ Hq). unfold missOf.
    destruct (0 <=? _) eqn:Hm; [|reflexivity]. apply Z.leb_le in Hm. lia. }
  split.
  - intros st. rewrite visit_verdict, Hv. reflexivity.
  - destruct (analyzeBlastOut_in_fails qs gold comp q _ Hit Hq Hv)
      as (e & q' & Hq' & Hv' & He & Hrun).
    exists e. split; [exact Hrun|]. split; [exact He|].
    intros Hgold. rewrite (verdict_in_scope _ _ _ Hq') in Hv'.
    destruct (0 <=? _); [|congruence].
    destruct (hitCount gold q' =? 0) eqn:Hz; [|discriminate].
    apply Z.eqb_eq in Hz. destruct (Hgold q' Hq' Hz).
Qed.

Lemma candidate_exceeds_gold_raises_witness :
  exists e, analyzeBlastOut (F:=float) (single "Q1" 5) (single "Q1" 6) = ([], Raise e) /\
            (e = AssertionError \/ e = ZeroDivisionError) /\
            ((forall q', q' ∈ intersection (single "Q1" 5) (single "Q1" 6) ->
                         hitCount (single "Q1" 5) q' <> 0) ->
             e = AssertionError).
Proof.
  apply (candidate_exceeds_gold_raises (F:=float) (single "Q1" 5) (single "Q1" 6)
           (elements (intersection (single "Q1" 5) (single "Q1" 6))) "Q1").
  - unfold iteration_of. reflexivity.
  - vm_compute. reflexivity.
  - vm_compute. reflexivity.
Defined.

(** C5, as stated, fails. For gold = {Q1: 2 hits} and candidate = {Q2: 2
    hits} no gold hit is accumulated, and the run evaluates the ratio all the
    same: it ends with the [ZeroDivisionError] of that division, after three
    lines were printed. For gold = {Q1: no hit} and candidate = {Q1: no hit}
    the gold hits of the scope add up to 0 as well, and the run ends with the
    [ZeroDivisionError] of the miss-fraction division, nothing printed. *)
Lemma zero_gold_total_counterexample :
  tally (F:=Q) (elements (intersection (single "Q1" 2) (single "Q2" 2)))
        (single "Q1" 2) (single "Q2" 2) = ([], Ok zero_counters) /\
  totalGoldHits zero_counters = 0 /\
  analyzeBlastOut (F:=Q) (single "Q1" 2) (single "Q2" 2)
    = ([Queries 0; Misses 0; TotalGoldHits 0], Raise ZeroDivisionError) /\
  report (F:=Q) 0 zero_counters
    = ([Queries 0; Misses 0; TotalGoldHits 0], Raise ZeroDivisionError) /\
  analyzeBlastOut (F:=float) (single "Q1" 2) (single "Q2" 2)
    = ([Queries 0; Misses 0; TotalGoldHits 0], Raise ZeroDivisionError) /\
  sum_over (hitCount (single "Q1" 0))
           (elements (intersection (single "Q1" 0) (single "Q1" 0))) = 0 /\
  analyzeBlastOut (F:=float) (single "Q1" 0) (single "Q1" 0)
    = ([], Raise ZeroDivisionError).
Proof. repeat split; vm_compute; reflexivity. Qed.

(** C5, amended. When the gold hits of the shared queries add up to 0, the
    comparison ends with an exception and prints no accuracy. If no query is
    shared, it prints the lines for the queries, the misses and the gold
    hits, all 0, and raises [ZeroDivisionError] at the accuracy division. If
    some query is shared, every shared query has no gold hit and the run ends
    in the first pass of the loop, nothing printed: with
    [ZeroDivisionError] at the miss-fraction division when the candidate has
    no hit for that query either, with [AssertionError] when it has some. *)
Theorem zero_gold_total_raises {F : Type} `{PyFloat F}
    (gold comp : ResultSet) (qs : list string) :
  iteration_of (intersection gold comp) qs ->
  sum_over (hitCount gold) qs = 0 ->
  overallAccuracy (analyzeBlastOut_in (F:=F) qs gold comp) = None /\
  match qs with
  | [] =>
      analyzeBlastOut_in (F:=F) qs gold comp
        = (report_prefix 0 0 0, Raise ZeroDivisionError)
  | q :: _ =>
      analyzeBlastOut_in (F:=F) qs gold comp
        = ([], Raise (if hitCount comp q =? 0
                      then ZeroDivisionError else AssertionError))
  end.
Proof.
  intros Hit Hsum.
  assert (Hrun : match qs with
    | [] => analyzeBlastOut_in (F:=F) qs gold comp
              = (report_prefix 0 0 0, Raise ZeroDivisionError)
    | q :: _ => analyzeBlastOut_in (F:=F) qs gold comp
              = ([], Raise (if hitCount comp q =? 0
                            then ZeroDivisionError else AssertionError))
    end).
  { destruct qs as [|q rest]; [reflexivity|].
    assert (Hq : q ∈ intersection gold comp)
      by (apply (iteration_of_elem _ _ _ Hit), elem_of_cons; auto).
    assert (Hall : Forall (fun _ : string => True) (q :: rest))
      by (apply Forall_forall; auto).
    apply (sum_over_zero _ _ _ Hall) in Hsum;
      [|intros; apply hitCount_nonneg].
    apply Forall_cons in Hsum as [Hg _].
    apply (analyzeBlastOut_in_raise [] q rest); [constructor|].
    rewrite (verdict_in_scope _ _ _ Hq). unfold missOf. rewrite Hg.
    pose proof (hitCount_nonneg comp q) as Hc.
    destruct (hitCount comp q =? 0) eqn:Hz.
    - apply Z.eqb_eq in Hz. rewrite Hz. reflexivity.
    - apply Z.eqb_neq in Hz.
      destruct (0 <=? 0 - hitCount comp q) eqn:Hm; [|reflexivity].
      apply Z.leb_le in Hm. lia. }
  split; [|exact Hrun].
  destruct qs as [|q rest]; rewrite Hrun; reflexivity.
Qed.

Lemma zero_gold_total_raises_witness :
  overallAccuracy (analyzeBlastOut (F:=float)
    {[ "Q1"%string := hits 0; "Q2"%string := hits 0 ]}
    {[ "Q1"%string := hits 3; "Q2"%string := hits 0 ]}) = None /\
  (analyzeBlastOut (F:=float)
     {[ "Q1"%string := hits 0; "Q2"%string := hits 0 ]}
     {[ "Q1"%string := hits 3; "Q2"%string := hits 0 ]}
     = ([], Raise AssertionError)).
Proof.
  assert (Hit : iteration_of
            (intersection {[ "Q1"%string := hits 0; "Q2"%string := hits 0 ]}
                          {[ "Q1"%string := hits 3; "Q2"%string := hits 0 ]})
            (elements (intersection
                         {[ "Q1"%string := hits 0; "Q2"%string := hits 0 ]}
                         {[ "Q1"%string := hits 3; "Q2"%string := hits 0 ]})))
    by (unfold iteration_of; reflexivity).
  assert (Hsum : sum_over (hitCount {[ "Q1"%string := hits 0; "Q2"%string := hits 0 ]})
            (elements (intersection
                         {[ "Q1"%string := hits 0; "Q2"%string := hits 0 ]}
                         {[ "Q1"%string := hits 3; "Q2"%string := hits 0 ]})) = 0)
    by (vm_compute; reflexivity).
  pose proof (zero_gold_total_raises (F:=float) _ _ _ Hit Hsum) as W.
  vm_compute in W. vm_compute. exact W.
Defined.

(** * Complete reports *)

Section Success.
Context {F : Type} `{PyFloat F}.

(** The counters at the end of a loop that raised nothing. *)
Lemma totals_unfold gold comp qs :
  foldl (step (F:=F) gold comp) zero_counters qs =
    Counters (sum_over (missOf gold comp) qs)
             (sum_over (hitCount gold) qs)
             (sum_over (fun q => ind (isPerfect gold comp q)) qs)
             (sum_over (fun q => ind (isBad (F:=F) gold comp q)) qs)
             (sum_over (fun q => ind (isVeryBad (F:=F) gold comp q)) qs).
Proof. rewrite foldl_step. reflexivity. Qed.

(** A run raises nothing exactly when some id is visited and no visited id
    has a verdict; it then prints the seven lines, with the sums below. *)
Lemma analyzeBlastOut_in_complete qs gold comp :
  Forall (fun q => verdict gold comp q = None) qs ->
  qs <> [] ->
  analyzeBlastOut_in (F:=F) qs gold comp =
    (full_report (len qs)
       (sum_over (missOf gold comp) qs)
       (sum_over (hitCount gold) qs)
       (accuracy (foldl (step (F:=F) gold comp) zero_counters qs))
       (sum_over (fun q => ind (isPerfect gold comp q)) qs)
       (len qs - sum_over (fun q => ind (isBad (F:=F) gold comp q)) qs)
       (len qs - sum_over (fun q => ind (isVeryBad (F:=F) gold comp q)) qs),
     Ok tt).
Proof.
  intros Hall Hne.
  rewrite (analyzeBlastOut_in_ok _ _ _ Hall), report_cases.
  pose proof (len_le_gold_total gold comp qs Hall) as Hle.
  assert (0 < len qs) by (unfold len; destruct qs; [congruence | cbn; lia]).
  set (a := accuracy _). rewrite totals_unfold.
  cbn [totalMiss totalGoldHits perfectQueries badQueries veryBadQueries].
  destruct (sum_over (hitCount gold) qs =? 0) eqn:Hz; [|reflexivity].
  apply Z.eqb_eq in Hz. lia.
Qed.

Lemma analyzeBlastOut_in_raised_None qs gold comp :
  raised (analyzeBlastOut_in (F:=F) qs gold comp) = None <->
  Forall (fun q => verdict gold comp q = None) qs /\ qs <> [].
Proof.
  split.
  - intros Hr.
    destruct (analyzeBlastOut_in_cases (F:=F) qs gold comp)
      as [(Hall & _ & Hrun) | (q & e & _ & _ & _ & Hrun)].
    + split; [exact Hall|]. intros ->. rewrite Hrun in Hr. discriminate.
    + rewrite Hrun in Hr. discriminate.
  - intros [Hall Hne]. rewrite (analyzeBlastOut_in_complete _ _ _ Hall Hne).
    reflexivity.
Qed.

(** The order in which the ids are visited does not change a run that
    raises nothing. *)
Lemma analyzeBlastOut_in_order qs qs' gold comp :
  qs ≡ₚ qs' ->
  Forall (fun q => verdict gold comp q = None) qs ->
  analyzeBlastOut_in (F:=F) qs gold comp = analyzeBlastOut_in (F:=F) qs' gold comp.
Proof.
  intros Hperm Hall.
  assert (Hall' : Forall (fun q => verdict gold comp q = None) qs')
    by (rewrite <- Hperm; exact Hall).
  destruct qs as [|q0 qs0].
  - apply Permutation_nil in Hperm. subst qs'. reflexivity.
  - assert (Hne' : qs' <> []).
    { intros ->. apply Permutation_nil_r in Hperm. discriminate Hperm. }
    rewrite (analyzeBlastOut_in_complete _ _ _ Hall) by discriminate.
    rewrite (analyzeBlastOut_in_complete _ _ _ Hall' Hne').
    unfold accuracy. rewrite !totals_unfold. cbn [totalMiss totalGoldHits].
    unfold len. rewrite <- (Permutation_length Hperm).
    rewrite <- !(sum_over_perm _ _ _ Hperm). reflexivity.
Qed.

End Success.

(** * Exact arithmetic *)

Lemma fgt_Q_spec (x y : Q) : fgt x y = true <-> (y < x)%Q.
Proof.
  cbn. rewrite negb_true_iff, <- not_true_iff_false, Qle_bool_iff.
  split; [apply Qnot_le_lt | apply Qlt_not_le].
Qed.

Lemma veryBad_isBad gold comp q :
  isVeryBad (F:=Q) gold comp q = true -> isBad (F:=Q) gold comp q = true.
Proof.
  unfold isVeryBad, isBad. rewrite !fgt_Q_spec. intros Hlt.
  apply Qlt_trans with (y := lit_0_2); [reflexivity | exact Hlt].
Qed.

Lemma perfect_not_isBad gold comp q :
  isPerfect gold comp q = true -> isBad (F:=Q) gold comp q = false.
Proof.
  unfold isPerfect, isBad, missFracOf. intros Hp. apply Z.eqb_eq in Hp.
  rewrite Hp. apply not_true_iff_false. rewrite fgt_Q_spec.
  apply Qle_not_lt. cbn. unfold Qdiv. rewrite Qmult_0_l. discriminate.
Qed.

(** Per visited id: a perfect query is not bad, and a very bad one is bad. *)
Lemma indicators_ordered gold comp q :
  ind (isPerfect gold comp q) + ind (isBad (F:=Q) gold comp q) <= 1 /\
  0 <= ind (isVeryBad (F:=Q) gold comp q) <= ind (isBad (F:=Q) gold comp q).
Proof.
  pose proof (perfect_not_isBad gold comp q) as Hp.
  pose proof (veryBad_isBad gold comp q) as Hv.
  destruct (isPerfect gold comp q), (isBad gold comp q), (isVeryBad gold comp q);
    cbn [ind]; try lia;
    first [ specialize (Hp eq_refl); discriminate
          | specialize (Hv eq_refl); discriminate ].
Qed.




(** * The two thresholds *)

(** What the counters need of the float arithmetic: a query without a miss is
    not above the first threshold, whatever the divisor, and a miss fraction
    above the second threshold is above the first. *)
Section Thresholds.
Context {F : Type} `{PyFloat F}.
Hypothesis zero_not_above_tenth :
  forall y : F, fgt (fdiv (of_int 0) y) lit_0_1 = false.
Hypothesis above_fifth_above_tenth :
  forall x : F, fgt x lit_0_2 = true -> fgt x lit_0_1 = true.

Lemma perfect_is_not_bad gold comp q :
  isPerfect gold comp q = true -> isBad (F:=F) gold comp q = false.
Proof.
  unfold isPerfect, isBad, missFracOf. intros Hp. apply Z.eqb_eq in Hp.
  rewrite Hp. apply zero_not_above_tenth.
Qed.

Lemma very_bad_is_bad gold comp q :
  isVeryBad (F:=F) gold comp q = true -> isBad (F:=F) gold comp q = true.
Proof. unfold isVeryBad, isBad. apply above_fifth_above_tenth. Qed.

(** Per visited id: a perfect query is not bad, and a very bad one is bad. *)
Lemma indicators_in_order gold comp q :
  ind (isPerfect gold comp q) + ind (isBad (F:=F) gold comp q) <= 1 /\
  0 <= ind (isVeryBad (F:=F) gold comp q) <= ind (isBad (F:=F) gold comp q).
Proof.
  pose proof (perfect_is_not_bad gold comp q) as Hp.
  pose proof (very_bad_is_bad gold comp q) as Hv.
  destruct (isPerfect gold comp q), (isBad gold comp q), (isVeryBad gold comp q);
    cbn [ind]; try lia;
    first [ specialize (Hp eq_refl); discriminate
          | specialize (Hv eq_refl); discriminate ].
Qed.

(** Over the visited ids: perfect <= above 90% <= above 80% <= visited. *)
Lemma counters_in_order gold comp qs :
  0 <= sum_over (fun q => ind (isPerfect gold comp q)) qs /\
  sum_over (fun q => ind (isPerfect gold comp q)) qs
    <= len qs - sum_over (fun q => ind (isBad (F:=F) gold comp q)) qs /\
  len qs - sum_over (fun q => ind (isBad (F:=F) gold comp q)) qs
    <= len qs - sum_over (fun q => ind (isVeryBad (F:=F) gold comp q)) qs /\
  len qs - sum_over (fun q => ind (isVeryBad (F:=F) gold comp q)) qs <= len qs.
Proof.
  assert (Hall : Forall (fun _ : string => True) qs) by (apply Forall_forall; auto).
  assert (Hpb : sum_over (fun q => ind (isPerfect gold comp q)
                                   + ind (isBad (F:=F) gold comp q)) qs
                <= sum_over (fun _ => 1) qs).
  { apply (sum_over_le _ _ _ _ Hall). intros q _. apply indicators_in_order. }
  assert (Hvb : sum_over (fun q => ind (isVeryBad (F:=F) gold comp q)) qs
                <= sum_over (fun q => ind (isBad (F:=F) gold comp q)) qs).
  { apply (sum_over_le _ _ _ _ Hall). intros q _. apply indicators_in_order. }
  assert (Hv0 : sum_over (fun _ => 0) qs
                <= sum_over (fun q => ind (isVeryBad (F:=F) gold comp q)) qs).
  { apply (sum_over_le _ _ _ _ Hall). intros q _. apply indicators_in_order. }
  assert (Hp0 : sum_over (fun _ => 0) qs
                <= sum_over (fun q => ind (isPerfect gold comp q)) qs).
  { apply (sum_over_le _ _ _ _ Hall). intros q _.
    destruct (isPerfect gold comp q); cbn [ind]; lia. }
  rewrite sum_over_plus in Hpb. rewrite !sum_over_const in *. lia.
Qed.

(** A run in which no visited query misses a hit. *)
Lemma analyzeBlastOut_in_without_miss gold comp qs :
  Forall (fun q => verdict gold comp q = None) qs ->
  qs <> [] ->
  Forall (fun q => missOf gold comp q = 0) qs ->
  analyzeBlastOut_in (F:=F) qs gold comp =
    (full_report (len qs) 0 (sum_over (hitCount gold) qs)
       (fsub (of_int 1) (fdiv (of_int 0) (of_int (sum_over (hitCount gold) qs))))
       (len qs) (len qs) (len qs), Ok tt).
Proof.
  intros Hall Hne Hmiss.
  set (P := fun q : string => missOf gold comp q = 0) in Hmiss.
  assert (Hm : sum_over (missOf gold comp) qs = 0).
  { rewrite (sum_over_eq P _ (fun _ => 0) qs Hmiss) by (intros q Hq; exact Hq).
    rewrite sum_over_const. lia. }
  assert (Hp : sum_over (fun q => ind (isPerfect gold comp q)) qs = len qs).
  { rewrite (sum_over_eq P _ (fun _ => 1) qs Hmiss).
    - rewrite sum_over_const. lia.
    - intros q Hq. unfold isPerfect. rewrite Hq. reflexivity. }
  assert (Hb : sum_over (fun q => ind (isBad (F:=F) gold comp q)) qs = 0).
  { rewrite (sum_over_eq P _ (fun _ => 0) qs Hmiss).
    - rewrite sum_over_const. lia.
    - intros q Hq. rewrite perfect_is_not_bad; [reflexivity|].
      unfold isPerfect. rewrite Hq. reflexivity. }
  assert (Hvb : sum_over (fun q => ind (isVeryBad (F:=F) gold comp q)) qs = 0).
  { rewrite (sum_over_eq P _ (fun _ => 0) qs Hmiss).
    - rewrite sum_over_const. lia.
    - intros q Hq. destruct (isVeryBad (F:=F) gold comp q) eqn:Hv; [|reflexivity].
      apply very_bad_is_bad in Hv. rewrite perfect_is_not_bad in Hv; [discriminate|].
      unfold isPerfect. rewrite Hq. reflexivity. }
  rewrite (analyzeBlastOut_in_complete _ _ _ Hall Hne).
  unfold accuracy. rewrite totals_unfold. cbn [totalMiss totalGoldHits].
  rewrite Hm, Hp, Hb, Hvb, !Z.sub_0_r. reflexivity.
Qed.

End Thresholds.

(** The two laws in binary64. [0.0 / y] is a zero or not a number; and the
    literal [0.2] is the literal [0.1] with the next exponent. *)
Lemma binary64_zero_not_above_tenth (y : float) :
  fgt (fdiv (of_int 0) y) (lit_0_1 (F:=float)) = false.
Proof.
  cbn. rewrite FloatAxioms.ltb_spec, FloatAxioms.div_spec.
  change (Prim2SF (float_of_Z 0)) with (S754_zero false).
  change (Prim2SF 0x1.999999999999ap-4%float)
    with (S754_finite false 7205759403792794 (-56)).
  destruct (Prim2SF y) as [s|s| |s m e]; reflexivity.
Qed.

Lemma binary64_above_fifth_above_tenth (x : float) :
  fgt x (lit_0_2 (F:=float)) = true -> fgt x (lit_0_1 (F:=float)) = true.
Proof.
  cbn. rewrite !FloatAxioms.ltb_spec.
  change (Prim2SF 0x1.999999999999ap-4%float)
    with (S754_finite false 7205759403792794 (-56)).
  change (Prim2SF 0x1.999999999999ap-3%float)
    with (S754_finite false 7205759403792794 (-55)).
  destruct (Prim2SF x) as [s|s| |s m e]; intros Hlt.
  - discriminate Hlt.
  - destruct s; [discriminate Hlt | reflexivity].
  - discriminate Hlt.
  - unfold SFltb, SFcompare in *. destruct s; [discriminate Hlt|].
    destruct (Z.compare_spec (-55) e) as [He|He|He];
      destruct (Z.compare_spec (-56) e) as [He'|He'|He']; try lia; congruence.
Qed.

(** * Invariants of a complete report *)

(** C9. When the comparison raises nothing, it prints the seven lines of a
    report in which the number of queries is the size of the intersection and
    perfect <= above 90% <= above 80% <= queries. The thresholds are tested
    in binary64, as the script does. *)
Theorem report_counters_ordered (gold comp : ResultSet) (qs : list string) :
  iteration_of (intersection gold comp) qs ->
  raised (analyzeBlastOut_in (F:=float) qs gold comp) = None ->
  exists n m t a p x y,
    analyzeBlastOut_in (F:=float) qs gold comp = (full_report n m t a p x y, Ok tt) /\
    n = Z.of_nat (size (intersection gold comp)) /\
    0 <= p /\ p <= x /\ x <= y /\ y <= n.
Proof.
  intros Hit Hr. apply analyzeBlastOut_in_raised_None in Hr as [Hall Hne].
  do 7 eexists. split; [apply analyzeBlastOut_in_complete; assumption|].
  split; [apply iteration_of_len, Hit|].
  apply (counters_in_order binary64_zero_not_above_tenth
           binary64_above_fifth_above_tenth gold comp qs).
Qed.

Lemma report_counters_ordered_witness :
  exists n m t a p x y,
    analyzeBlastOut (F:=float) gold_10_4 comp_9_4 = (full_report n m t a p x y, Ok tt) /\
    n = Z.of_nat (size (intersection gold_10_4 comp_9_4)) /\
    0 <= p /\ p <= x /\ x <= y /\ y <= n.
Proof.
  apply (report_counters_ordered gold_10_4 comp_9_4
           (elements (intersection gold_10_4 comp_9_4))).
  - unfold iteration_of. reflexivity.
  - vm_compute. reflexivity.
Defined.



(** * Self-comparison *)




(** * Monotonicity *)




(** * The derived output path *)

Module ConvertTabFacts.
Import ConvertTab.

Lemma split_nonempty sep s : split sep s <> [].
Proof.
  destruct s as [|c r]; cbn; [discriminate|].
  destruct (Ascii.eqb c sep); [discriminate|].
  destruct (split sep r); discriminate.
Qed.

(** [filenameRoot] is the part of the path before its first dot. *)
Lemma filenameRoot_cons c r :
  filenameRoot (String c r) =
    if Ascii.eqb c "." then EmptyString else String c (filenameRoot r).
Proof.
  unfold filenameRoot. cbn [split].
  destruct (Ascii.eqb c "."); [reflexivity|].
  pose proof (split_nonempty "." r) as Hne.
  destruct (split "." r); [congruence | reflexivity].
Qed.

Lemma filenameRoot_no_dot s : has_dot (filenameRoot s) = false.
Proof.
  induction s as [|c r IH]; [reflexivity|].
  rewrite filenameRoot_cons.
  destruct (Ascii.eqb c ".") eqn:Hc; [reflexivity|].
  cbn. rewrite Hc, IH. reflexivity.
Qed.

(** The two agree on a path without a dot and on a path with one dot. *)
Lemma filenameRoot_at_most_one_dot pre post :
  has_dot pre = false -> has_dot post = false ->
  filenameRoot pre = strip_extension pre /\
  filenameRoot (String.append pre (String "." post))
    = strip_extension (String.append pre (String "." post)).
Proof.
  intros Hpre Hpost. induction pre as [|c r IH].
  - split; [reflexivity|].
    change (String.append EmptyString (String "." post)) with (String "." post).
    rewrite filenameRoot_cons. cbn. rewrite Hpost. reflexivity.
  - cbn in Hpre. apply orb_false_iff in Hpre as [Hc Hr].
    destruct (IH Hr) as [IH1 IH2].
    change (String.append (String c r) (String "." post))
      with (String c (String.append r (String "." post))).
    rewrite !filenameRoot_cons, Hc.
    cbn [strip_extension]. rewrite Hc. cbn [andb].
    rewrite IH1, IH2. split; reflexivity.
Qed.

(** C8 does not hold of the script: with the output argument omitted and
    the input path sample.v2.txt, [main] passes sample.xml to the
    conversion, the path cut at its first dot, where stripping the
    extension gives sample.v2.xml. A path that starts with "./" is cut to
    the bare ".xml". *)
Theorem derived_output_cut_at_first_dot :
  main ["convert"; "sample.v2.txt"]%string
    = Convert "sample.v2.txt" "blast-tab" "sample.xml" "blast-xml" /\
  derived_by_description "sample.v2.txt" = "sample.v2.xml"%string /\
  outFileOf (main ["convert"; "sample.v2.txt"]%string)
    <> Some (derived_by_description "sample.v2.txt") /\
  main ["convert"; "./run/sample.txt"]%string
    = Convert "./run/sample.txt" "blast-tab" ".xml" "blast-xml" /\
  main ["convert"; "sample.txt"]%string
    = Convert "sample.txt" "blast-tab" "sample.xml" "blast-xml".
Proof.
  split; [reflexivity|]. split; [reflexivity|].
  split; [vm_compute; discriminate|]. split; reflexivity.
Qed.

End ConvertTabFacts.

(** * File names and the parsed dictionary *)

Lemma list_ascii_of_string_append (p e : string) :
  list_ascii_of_string (String.append p e)
    = list_ascii_of_string p ++ list_ascii_of_string e.
Proof.
  induction p as [|c p IH]; [reflexivity|].
  change (String.append (String c p) e) with (String c (String.append p e)).
  cbn [list_ascii_of_string]. rewrite IH. reflexivity.
Qed.

Lemma length_list_ascii_of_string (s : string) :
  length (list_ascii_of_string s) = String.length s.
Proof. induction s as [|c s IH]; [reflexivity|]. cbn. rewrite IH. reflexivity. Qed.

(** The last [k] characters of a name that ends with the [k] characters [e]
    are [e]. *)
Lemma last_chars_append (k : nat) (p e : string) :
  String.length e = k -> last_chars k (String.append p e) = e.
Proof.
  intros Hk. unfold last_chars.
  rewrite list_ascii_of_string_append, length_app, length_list_ascii_of_string.
  rewrite (length_list_ascii_of_string e), Hk.
  replace (String.length p + k - k)%nat with (length (list_ascii_of_string p))
    by (rewrite length_list_ascii_of_string; lia).
  rewrite drop_app_length. apply string_of_list_ascii_of_string.
Qed.

(** A name with fewer than [k] characters is its own last [k] characters. *)
Lemma last_chars_short (k : nat) (s : string) :
  (String.length s <= k)%nat -> last_chars k s = s.
Proof.
  intros Hk. unfold last_chars.
  replace (length (list_ascii_of_string s) - k)%nat with 0%nat
    by (rewrite length_list_ascii_of_string; lia).
  apply string_of_list_ascii_of_string.
Qed.

Lemma filetype_xml (p : string) : filetype (String.append p "xml") = Some "blast-xml"%string.
Proof. unfold filetype. rewrite last_chars_append by reflexivity. reflexivity. Qed.

Lemma filetype_txt (p : string) : filetype (String.append p "txt") = Some "blast-tab"%string.
Proof. unfold filetype. rewrite last_chars_append by reflexivity. reflexivity. Qed.

Lemma dict_of_snoc (l : list (string * QueryResult)) (q : string) (r : QueryResult) :
  dict_of (l ++ [(q, r)]) = <[q := r]> (dict_of l).
Proof. unfold dict_of. rewrite foldl_app. reflexivity. Qed.

Section ParseFacts.
Context {F : Type} `{PyFloat F}.
Variable SearchIO_parse : string -> string -> result (list (string * QueryResult)).

(** What [parseBlastOutFile] does, by the format of the name. *)
Lemma parseBlastOutFile_filetype (filename : string) :
  CompareBlast.parseBlastOutFile (F:=F) SearchIO_parse filename =
    match filetype filename with
    | Some format =>
        match SearchIO_parse filename format with
        | Ok qResults =>
            ([Text (String.append "Parsed " filename)], Ok (dict_of qResults))
        | Raise e => ([], Raise e)
        end
    | None => ([Text "Unrecognized filetype."], Raise AssertionError)
    end.
Proof.
  unfold CompareBlast.parseBlastOutFile, filetype.
  destruct (String.eqb (last_chars 3 filename) "xml").
  { cbn. destruct (SearchIO_parse filename "blast-xml"); reflexivity. }
  destruct (String.eqb (last_chars 3 filename) "txt"); [|reflexivity].
  cbn. destruct (SearchIO_parse filename "blast-tab"); reflexivity.
Qed.

End ParseFacts.

(** X1. [parseBlastOutFile] chooses the format from the last three characters
    of the file name alone: every name that ends in xml is handed to the
    parser as blast-xml and every name that ends in txt as blast-tab, with or
    without a dot before them. If the parser yields its records, the call
    prints "Parsed " followed by the name and returns the dictionary built
    from them; if the parser raises (a missing or malformed file), that
    exception ends the call and "Parsed" is not printed. *)
Theorem parseBlastOutFile_by_last_three_characters {F : Type} `{PyFloat F}
    (SearchIO_parse : string -> string -> result (list (string * QueryResult)))
    (p : string) :
  CompareBlast.parseBlastOutFile (F:=F) SearchIO_parse (String.append p "xml")
    = match SearchIO_parse (String.append p "xml") "blast-xml" with
      | Ok qResults =>
          ([Text (String.append "Parsed " (String.append p "xml"))],
           Ok (dict_of qResults))
      | Raise e => ([], Raise e)
      end /\
  CompareBlast.parseBlastOutFile (F:=F) SearchIO_parse (String.append p "txt")
    = match SearchIO_parse (String.append p "txt") "blast-tab" with
      | Ok qResults =>
          ([Text (String.append "Parsed " (String.append p "txt"))],
           Ok (dict_of qResults))
      | Raise e => ([], Raise e)
      end.
Proof.
  split; rewrite parseBlastOutFile_filetype.
  - rewrite filetype_xml. reflexivity.
  - rewrite filetype_txt. reflexivity.
Qed.

(** X2. When the last three characters of the file name are neither xml nor
    txt, [parseBlastOutFile] prints "Unrecognized filetype." and ends with
    [AssertionError]; the parser is not consulted, and "Parsed" is not
    printed. *)
Theorem parseBlastOutFile_unrecognised {F : Type} `{PyFloat F}
    (SearchIO_parse : string -> string -> result (list (string * QueryResult)))
    (filename : string) :
  last_chars 3 filename <> "xml"%string ->
  last_chars 3 filename <> "txt"%string ->
  CompareBlast.parseBlastOutFile (F:=F) SearchIO_parse filename
    = ([Text "Unrecognized filetype."], Raise AssertionError).
Proof.
  intros Hx Ht. rewrite parseBlastOutFile_filetype. unfold filetype.
  apply String.eqb_neq in Hx, Ht. rewrite Hx, Ht. reflexivity.
Qed.

Lemma parseBlastOutFile_unrecognised_witness :
  CompareBlast.parseBlastOutFile (F:=Q) sample_parse "gold.xml.gz"
    = ([Text "Unrecognized filetype."], Raise AssertionError).
Proof.
  apply (parseBlastOutFile_unrecognised (F:=Q) sample_parse "gold.xml.gz");
    vm_compute; discriminate.
Defined.

(** X3. A file name of fewer than three characters is always refused: the
    slice [filename[-3:]] is then the whole name, which is neither xml nor
    txt. *)
Theorem parseBlastOutFile_short_name {F : Type} `{PyFloat F}
    (SearchIO_parse : string -> string -> result (list (string * QueryResult)))
    (filename : string) :
  (String.length filename < 3)%nat ->
  last_chars 3 filename = filename /\
  CompareBlast.parseBlastOutFile (F:=F) SearchIO_parse filename
    = ([Text "Unrecognized filetype."], Raise AssertionError).
Proof.
  intros Hlen.
  assert (Hs : last_chars 3 filename = filename) by (apply last_chars_short; lia).
  split; [exact Hs|].
  rewrite parseBlastOutFile_filetype. unfold filetype. rewrite Hs.
  destruct (String.eqb filename "xml") eqn:Hx.
  { apply String.eqb_eq in Hx. subst filename. cbn in Hlen. lia. }
  destruct (String.eqb filename "txt") eqn:Ht.
  { apply String.eqb_eq in Ht. subst filename. cbn in Hlen. lia. }
  reflexivity.
Qed.

Lemma parseBlastOutFile_short_name_witness :
  last_chars 3 "ml" = "ml"%string /\
  CompareBlast.parseBlastOutFile (F:=Q) sample_parse "ml"
    = ([Text "Unrecognized filetype."], Raise AssertionError).
Proof.
  apply (parseBlastOutFile_short_name (F:=Q) sample_parse "ml"). cbn. lia.
Defined.

(** X4. In the dictionary built from the parser's records a query id maps to
    the hits of the last record with that id: a later record replaces an
    earlier one. *)
Theorem dict_of_last_record_wins
    (before after : list (string * QueryResult)) (q : string) (r : QueryResult) :
  q ∉ after.*1 ->
  dict_of (before ++ (q, r) :: after) !! q = Some r.
Proof.
  induction after as [|[q' r'] after IH] using rev_ind; intros Hq.
  - rewrite dict_of_snoc. apply lookup_insert_eq.
  - rewrite fmap_app in Hq. cbn in Hq.
    apply not_elem_of_app in Hq as [Hq Hq'].
    apply not_elem_of_cons in Hq' as [Hne _].
    change (before ++ (q, r) :: after ++ [(q', r')])
      with (before ++ ((q, r) :: after) ++ [(q', r')]).
    rewrite app_assoc, dict_of_snoc, lookup_insert_ne by congruence.
    apply IH, Hq.
Qed.

Lemma dict_of_last_record_wins_witness :
  dict_of ([("Q1"%string, hits 1); ("Q2"%string, hits 2)]
           ++ ("Q1"%string, hits 3) :: [("Q2"%string, hits 4)]) !! "Q1"%string
    = Some (hits 3).
Proof.
  apply (dict_of_last_record_wins [("Q1"%string, hits 1); ("Q2"%string, hits 2)]
           [("Q2"%string, hits 4)] "Q1" (hits 3)).
  cbn. rewrite list_elem_of_singleton. discriminate.
Defined.

Lemma dict_of_dom (l : list (string * QueryResult)) :
  dom (dict_of l) = list_to_set l.*1.
Proof.
  induction l as [|[q r] l IH] using rev_ind; [apply dom_empty_L|].
  rewrite dict_of_snoc, dom_insert_L, IH, fmap_app, list_to_set_app_L.
  cbn. rewrite union_empty_r_L. apply union_comm_L.
Qed.

Lemma dict_of_size (l : list (string * QueryResult)) :
  (size (dict_of l) <= length l)%nat.
Proof.
  induction l as [|[q r] l IH] using rev_ind.
  { unfold dict_of. cbn [foldl]. rewrite map_size_empty. reflexivity. }
  rewrite dict_of_snoc, length_app. cbn [length].
  rewrite map_size_insert.
  destruct (dict_of l !! q); cbn; lia.
Qed.

(** X5. The keys of the dictionary built from the parser's records are
    exactly the ids of the records, so an id that no record has is not a
    key, and the dictionary has at most as many entries as there are
    records. *)
Theorem dict_of_keys (l : list (string * QueryResult)) (q : string) :
  dom (dict_of l) = list_to_set l.*1 /\
  (q ∈ l.*1 <-> is_Some (dict_of l !! q)) /\
  (size (dict_of l) <= length l)%nat.
Proof.
  split; [apply dict_of_dom|]. split; [|apply dict_of_size].
  rewrite <- elem_of_dom, dict_of_dom, elem_of_list_to_set. reflexivity.
Qed.

(** * The command line *)

(** X6. With any number of command-line arguments other than three, [main]
    prints the usage line and returns: no file is parsed, nothing is
    compared, and no exception is raised. *)
Theorem main_usage {F : Type} `{PyFloat F}
    (SearchIO_parse : string -> string -> result (list (string * QueryResult)))
    (set_order : gset string -> list string) (args : list string) :
  length args <> 3%nat ->
  CompareBlast.main (F:=F) SearchIO_parse set_order args
    = ([Text "Usage: [gold-standard] [comparison]"], Ok tt).
Proof.
  intros Hlen.
  destruct args as [|a0 [|a1 [|a2 [|a3 args]]]]; try reflexivity.
  cbn in Hlen. congruence.
Qed.

Lemma main_usage_witness :
  CompareBlast.main (F:=Q) sample_parse elements ["compare"; "gold.xml"]%string
    = ([Text "Usage: [gold-standard] [comparison]"], Ok tt).
Proof.
  apply (main_usage (F:=Q) sample_parse elements ["compare"; "gold.xml"]%string).
  cbn. lia.
Defined.

(** X7. When the gold-standard file name is refused, [main] ends with
    [AssertionError] after the one line "Unrecognized filetype.": the
    comparison file is not looked at, whatever its name, and no line of a
    report is printed. *)
Theorem main_gold_unrecognised {F : Type} `{PyFloat F}
    (SearchIO_parse : string -> string -> result (list (string * QueryResult)))
    (set_order : gset string -> list string) (prog goldFile compFile : string) :
  filetype goldFile = None ->
  CompareBlast.main (F:=F) SearchIO_parse set_order [prog; goldFile; compFile]
    = ([Text "Unrecognized filetype."], Raise AssertionError).
Proof.
  intros Hg. unfold CompareBlast.main.
  rewrite parseBlastOutFile_filetype, Hg. reflexivity.
Qed.

Lemma main_gold_unrecognised_witness :
  CompareBlast.main (F:=Q) sample_parse elements ["compare"; "gold.csv"; "cand.txt"]%string
    = ([Text "Unrecognized filetype."], Raise AssertionError).
Proof.
  apply (main_gold_unrecognised (F:=Q) sample_parse elements "compare" "gold.csv" "cand.txt").
  vm_compute. reflexivity.
Defined.

(** X8. When the gold-standard file name is accepted and its file is parsed,
    and the comparison file name is refused, the gold-standard file has
    already been read: [main] prints "Parsed " with the gold-standard name,
    then "Unrecognized filetype.", and ends with [AssertionError] without any
    line of a report. *)
Theorem main_comp_unrecognised {F : Type} `{PyFloat F}
    (SearchIO_parse : string -> string -> result (list (string * QueryResult)))
    (set_order : gset string -> list string)
    (prog goldFile compFile format : string)
    (goldResults : list (string * QueryResult)) :
  filetype goldFile = Some format ->
  SearchIO_parse goldFile format = Ok goldResults ->
  filetype compFile = None ->
  CompareBlast.main (F:=F) SearchIO_parse set_order [prog; goldFile; compFile]
    = ([Text (String.append "Parsed " goldFile); Text "Unrecognized filetype."],
       Raise AssertionError).
Proof.
  intros Hg Hp Hc. unfold CompareBlast.main.
  rewrite !parseBlastOutFile_filetype, Hg, Hp, Hc. reflexivity.
Qed.

Lemma main_comp_unrecognised_witness :
  CompareBlast.main (F:=Q) sample_parse elements ["compare"; "gold.xml"; "cand.tab"]%string
    = ([Text "Parsed gold.xml"; Text "Unrecognized filetype."], Raise AssertionError).
Proof.
  apply (main_comp_unrecognised (F:=Q) sample_parse elements
           "compare" "gold.xml" "cand.tab" "blast-xml"
           [("Q1"%string, hits 10); ("Q2"%string, hits 4)]);
    vm_compute; reflexivity.
Defined.

(** X9. When both file names are accepted and both files are parsed, [main]
    prints the two "Parsed" lines, gold standard first, and then exactly what
    [analyzeBlastOut] prints for the two dictionaries built from the parser's
    records; it ends the way [analyzeBlastOut] ends. *)
Theorem main_compares_parsed_files {F : Type} `{PyFloat F}
    (SearchIO_parse : string -> string -> result (list (string * QueryResult)))
    (set_order : gset string -> list string)
    (prog goldFile compFile goldFormat compFormat : string)
    (goldResults compResults : list (string * QueryResult)) :
  filetype goldFile = Some goldFormat ->
  filetype compFile = Some compFormat ->
  SearchIO_parse goldFile goldFormat = Ok goldResults ->
  SearchIO_parse compFile compFormat = Ok compResults ->
  let gold := dict_of goldResults in
  let comp := dict_of compResults in
  let run := analyzeBlastOut_in (F:=F) (set_order (intersection gold comp)) gold comp in
  said (CompareBlast.main (F:=F) SearchIO_parse set_order [prog; goldFile; compFile])
    = Text (String.append "Parsed " goldFile)
      :: Text (String.append "Parsed " compFile)
      :: (Report <$> printed run) /\
  ended (CompareBlast.main (F:=F) SearchIO_parse set_order [prog; goldFile; compFile])
    = raised run.
Proof.
  intros Hg Hc Hpg Hpc gold comp run. unfold CompareBlast.main.
  rewrite !parseBlastOutFile_filetype, Hg, Hc, Hpg, Hpc.
  subst gold comp run. unfold bind_s, lift, said, ended, printed, raised.
  destruct (analyzeBlastOut_in _ _ _) as [out r]. cbn. split; reflexivity.
Qed.

Lemma main_compares_parsed_files_witness :
  said (CompareBlast.main (F:=float) sample_parse elements
          ["compare"; "gold.xml"; "cand.txt"]%string)
    = Text "Parsed gold.xml" :: Text "Parsed cand.txt"
      :: (Report <$> full_report 2 1 14 0x1.db6db6db6db6ep-1%float 1 2 2) /\
  ended (CompareBlast.main (F:=float) sample_parse elements
           ["compare"; "gold.xml"; "cand.txt"]%string) = None.
Proof.
  assert (Hg : filetype "gold.xml" = Some "blast-xml"%string)
    by (vm_compute; reflexivity).
  assert (Hc : filetype "cand.txt" = Some "blast-tab"%string)
    by (vm_compute; reflexivity).
  pose proof (main_compares_parsed_files (F:=float) sample_parse elements
                "compare" "gold.xml" "cand.txt" "blast-xml" "blast-tab"
                [("Q1"%string, hits 10); ("Q2"%string, hits 4)]
                [("Q1"%string, hits 9); ("Q2"%string, hits 4)]
                Hg Hc eq_refl eq_refl) as W.
  vm_compute in W. vm_compute. exact W.
Defined.

(** X21. When a file name is accepted and the parser raises on the file,
    that exception ends [main] at once: for the gold-standard file nothing
    has been printed and the comparison file is not looked at; for the
    comparison file only "Parsed " with the gold-standard name has been
    printed. No line of a report is printed in either case. *)
Theorem main_parser_raises {F : Type} `{PyFloat F}
    (SearchIO_parse : string -> string -> result (list (string * QueryResult)))
    (set_order : gset string -> list string)
    (prog goldFile compFile goldFormat : string) (e : exn) :
  filetype goldFile = Some goldFormat ->
  (SearchIO_parse goldFile goldFormat = Raise e ->
   CompareBlast.main (F:=F) SearchIO_parse set_order [prog; goldFile; compFile]
     = ([], Raise e)) /\
  (forall compFormat goldResults,
     SearchIO_parse goldFile goldFormat = Ok goldResults ->
     filetype compFile = Some compFormat ->
     SearchIO_parse compFile compFormat = Raise e ->
     CompareBlast.main (F:=F) SearchIO_parse set_order [prog; goldFile; compFile]
       = ([Text (String.append "Parsed " goldFile)], Raise e)).
Proof.
  intros Hg. split.
  - intros Hp. unfold CompareBlast.main.
    rewrite parseBlastOutFile_filetype, Hg, Hp. reflexivity.
  - intros compFormat goldResults Hp Hc Hpc. unfold CompareBlast.main.
    rewrite !parseBlastOutFile_filetype, Hg, Hp, Hc, Hpc. reflexivity.
Qed.

Lemma main_parser_raises_witness :
  CompareBlast.main (F:=float) sample_parse elements
    ["compare"; "missing.xml"; "cand.txt"]%string
    = ([], Raise (External "IOError")).
Proof.
  apply (main_parser_raises (F:=float) sample_parse elements
           "compare" "missing.xml" "cand.txt" "blast-xml" (External "IOError"));
    vm_compute; reflexivity.
Defined.

(** * More on the comparison *)

(** X10. The comparison raises nothing exactly when the two result sets
    share at least one query id and, for every shared id, gold has at least
    one hit and the candidate has no more hits than gold. *)
Theorem analyzeBlastOut_succeeds_iff {F : Type} `{PyFloat F}
    (gold comp : ResultSet) (qs : list string) :
  iteration_of (intersection gold comp) qs ->
  raised (analyzeBlastOut_in (F:=F) qs gold comp) = None <->
  intersection gold comp <> ∅ /\
  forall q, q ∈ intersection gold comp ->
            0 < hitCount gold q /\ hitCount comp q <= hitCount gold q.
Proof.
  intros Hit. rewrite analyzeBlastOut_in_raised_None, Forall_forall.
  split.
  - intros [Hall Hne]. split.
    + intros Hempty. apply Hne, (iteration_of_empty _ _ Hit Hempty).
    + intros q Hq. apply (iteration_of_elem _ _ _ Hit) in Hq.
      apply Hall, verdict_None in Hq. lia.
  - intros [Hne Hall]. split.
    + intros q Hq. apply (iteration_of_elem _ _ _ Hit) in Hq.
      apply verdict_None. split; [exact Hq|].
      specialize (Hall q Hq).
      assert (0 <= hitCount comp q)
        by (unfold hitCount, len; destruct (comp !! q); lia).
      lia.
    + intros ->. apply Hne, leibniz_equiv, elements_empty_iff.
      apply Permutation_nil. exact Hit.
Qed.

Lemma analyzeBlastOut_succeeds_iff_witness :
  raised (analyzeBlastOut (F:=float) gold_10_4 comp_9_4) = None <->
  intersection gold_10_4 comp_9_4 <> ∅ /\
  forall q, q ∈ intersection gold_10_4 comp_9_4 ->
            0 < hitCount gold_10_4 q /\ hitCount comp_9_4 q <= hitCount gold_10_4 q.
Proof.
  apply (analyzeBlastOut_succeeds_iff (F:=float) gold_10_4 comp_9_4
           (elements (intersection gold_10_4 comp_9_4))).
  unfold iteration_of. reflexivity.
Defined.

(** X11. Whatever the two result sets, a comparison ends in one of four
    ways: a complete report of seven lines and no exception; the three lines
    "Queries: 0", "Misses: 0", "Total hits in gold-standard: 0" followed by
    [ZeroDivisionError]; or nothing printed and [AssertionError] or
    [ZeroDivisionError]. The look-ups [gold[qId]] and [comp[qId]] never raise
    [KeyError], and no other part of a report is ever printed. *)
Theorem analyzeBlastOut_endings {F : Type} `{PyFloat F}
    (gold comp : ResultSet) (qs : list string) :
  iteration_of (intersection gold comp) qs ->
  (exists n m t a p x y,
     analyzeBlastOut_in (F:=F) qs gold comp = (full_report n m t a p x y, Ok tt)) \/
  analyzeBlastOut_in (F:=F) qs gold comp
    = (report_prefix 0 0 0, Raise ZeroDivisionError) \/
  analyzeBlastOut_in (F:=F) qs gold comp = ([], Raise AssertionError) \/
  analyzeBlastOut_in (F:=F) qs gold comp = ([], Raise ZeroDivisionError).
Proof.
  intros Hit.
  destruct (analyzeBlastOut_in_cases (F:=F) qs gold comp)
    as [(Hall & _ & Hrun) | (q & e & Hq & He & _ & Hrun)].
  - destruct qs as [|q0 qs0].
    + right. left. exact Hrun.
    + left. do 7 eexists. apply analyzeBlastOut_in_complete; [exact Hall | discriminate].
  - right. right.
    apply (iteration_of_elem _ _ _ Hit) in Hq.
    rewrite (verdict_in_scope _ _ _ Hq) in He. rewrite Hrun.
    destruct (0 <=? _); [destruct (_ =? 0)|]; inversion He; auto.
Qed.

Lemma analyzeBlastOut_endings_witness :
  (exists n m t a p x y,
     analyzeBlastOut (F:=Q) (single "Q1" 5) (single "Q1" 6)
       = (full_report n m t a p x y, Ok tt)) \/
  analyzeBlastOut (F:=Q) (single "Q1" 5) (single "Q1" 6)
    = (report_prefix 0 0 0, Raise ZeroDivisionError) \/
  analyzeBlastOut (F:=Q) (single "Q1" 5) (single "Q1" 6) = ([], Raise AssertionError) \/
  analyzeBlastOut (F:=Q) (single "Q1" 5) (single "Q1" 6) = ([], Raise ZeroDivisionError).
Proof.
  apply (analyzeBlastOut_endings (F:=Q) (single "Q1" 5) (single "Q1" 6)
           (elements (intersection (single "Q1" 5) (single "Q1" 6)))).
  unfold iteration_of. reflexivity.
Defined.

(** X12. The order in which the shared ids are visited changes neither what
    is printed nor whether an exception is raised; a run that raises nothing
    is the same in every order. (Which of [AssertionError] and
    [ZeroDivisionError] ends a failing run can depend on the order.) *)
Theorem analyzeBlastOut_order_irrelevant {F : Type} `{PyFloat F}
    (gold comp : ResultSet) (qs qs' : list string) :
  iteration_of (intersection gold comp) qs ->
  iteration_of (intersection gold comp) qs' ->
  printed (analyzeBlastOut_in (F:=F) qs gold comp)
    = printed (analyzeBlastOut_in (F:=F) qs' gold comp) /\
  (raised (analyzeBlastOut_in (F:=F) qs gold comp) = None <->
   raised (analyzeBlastOut_in (F:=F) qs' gold comp) = None) /\
  (raised (analyzeBlastOut_in (F:=F) qs gold comp) = None ->
   analyzeBlastOut_in (F:=F) qs gold comp = analyzeBlastOut_in (F:=F) qs' gold comp).
Proof.
  intros Hit Hit'.
  assert (Hperm : qs ≡ₚ qs') by (unfold iteration_of in *; rewrite Hit, Hit'; reflexivity).
  destruct (analyzeBlastOut_in_cases (F:=F) qs gold comp)
    as [(Hall & _ & _) | (q & e & Hq & He & _ & Hrun)].
  - rewrite (analyzeBlastOut_in_order qs qs' gold comp Hperm Hall).
    split; [reflexivity|]. split; [reflexivity|]. intros _. reflexivity.
  - destruct (analyzeBlastOut_in_cases (F:=F) qs' gold comp)
      as [(Hall' & _ & _) | (q' & e' & _ & _ & _ & Hrun')].
    + rewrite Forall_forall in Hall'. rewrite (Hall' q) in He; [discriminate|].
      rewrite <- Hperm. exact Hq.
    + rewrite Hrun, Hrun'. split; [reflexivity|].
      split; [split; discriminate | discriminate].
Qed.

Lemma analyzeBlastOut_order_irrelevant_witness :
  printed (analyzeBlastOut_in (F:=float) ["Q1"; "Q2"]%string gold_10_4 comp_9_4)
    = printed (analyzeBlastOut_in (F:=float) ["Q2"; "Q1"]%string gold_10_4 comp_9_4) /\
  (raised (analyzeBlastOut_in (F:=float) ["Q1"; "Q2"]%string gold_10_4 comp_9_4) = None <->
   raised (analyzeBlastOut_in (F:=float) ["Q2"; "Q1"]%string gold_10_4 comp_9_4) = None) /\
  (raised (analyzeBlastOut_in (F:=float) ["Q1"; "Q2"]%string gold_10_4 comp_9_4) = None ->
   analyzeBlastOut_in (F:=float) ["Q1"; "Q2"]%string gold_10_4 comp_9_4
     = analyzeBlastOut_in (F:=float) ["Q2"; "Q1"]%string gold_10_4 comp_9_4).
Proof.
  apply (analyzeBlastOut_order_irrelevant (F:=float) gold_10_4 comp_9_4
           ["Q1"; "Q2"]%string ["Q2"; "Q1"]%string).
  - unfold iteration_of.
    change (elements (intersection gold_10_4 comp_9_4)) with ["Q1"; "Q2"]%string.
    reflexivity.
  - unfold iteration_of.
    change (elements (intersection gold_10_4 comp_9_4)) with ["Q1"; "Q2"]%string.
    apply Permutation_swap.
Defined.

Section Extensionality.
Context {F : Type} `{PyFloat F}.

(** A run reads the two result sets only through the verdicts and the hit
    counts at the visited ids. *)
Lemma analyzeBlastOut_in_ext qs gold comp gold' comp' :
  (forall q, q ∈ qs -> verdict gold comp q = verdict gold' comp' q) ->
  (forall q, q ∈ qs -> verdict gold comp q = None ->
             hitCount gold q = hitCount gold' q /\ hitCount comp q = hitCount comp' q) ->
  analyzeBlastOut_in (F:=F) qs gold comp = analyzeBlastOut_in (F:=F) qs gold' comp'.
Proof.
  intros Hv Hc. unfold analyzeBlastOut_in, tally.
  assert (Hloop : forall st,
            for_each (visit (F:=F) gold comp) qs st
              = for_each (visit (F:=F) gold' comp') qs st).
  { induction qs as [|q qs IH]; intros st; [reflexivity|].
    cbn [for_each]. rewrite !visit_verdict, <- (Hv q) by (apply elem_of_cons; auto).
    destruct (verdict gold comp q) eqn:Hq; [reflexivity|].
    destruct (Hc q) as [Hg Hcq]; [apply elem_of_cons; auto | exact Hq |].
    assert (Hstep : step (F:=F) gold comp st q = step (F:=F) gold' comp' st q).
    { unfold step, missFracOf, missOf. rewrite Hg, Hcq. reflexivity. }
    rewrite Hstep. unfold bind. rewrite IH; [reflexivity | |].
    - intros q' Hq'. apply Hv, elem_of_cons. auto.
    - intros q' Hq'. apply Hc, elem_of_cons. auto. }
  rewrite Hloop. reflexivity.
Qed.

End Extensionality.

(** X13. Queries that only one of the two result sets has are ignored: adding
    to the gold standard a query the candidate lacks, and to the candidate a
    different query the gold standard lacks, changes neither the set of
    shared ids nor the run. *)
Theorem analyzeBlastOut_ignores_unshared {F : Type} `{PyFloat F}
    (gold comp : ResultSet) (qg qc : string) (rg rc : QueryResult) (qs : list string) :
  qg ∉ dom comp -> qc ∉ dom gold -> qg <> qc ->
  intersection (<[qg := rg]> gold) (<[qc := rc]> comp) = intersection gold comp /\
  analyzeBlastOut_in (F:=F) qs (<[qg := rg]> gold) (<[qc := rc]> comp)
    = analyzeBlastOut_in (F:=F) qs gold comp.
Proof.
  intros Hqg Hqc Hne. split.
  - unfold intersection. rewrite !dom_insert_L.
    apply set_eq. intros x.
    rewrite !elem_of_intersection, !elem_of_union, !elem_of_singleton.
    split.
    + intros [[-> | Hg] [-> | Hc]]; try congruence; try tauto.
    + tauto.
  - apply not_elem_of_dom in Hqg, Hqc.
    assert (Hlook : forall q, q <> qg -> q <> qc ->
              <[qg := rg]> gold !! q = gold !! q /\ <[qc := rc]> comp !! q = comp !! q).
    { intros q H1 H2. rewrite !lookup_insert_ne by congruence. split; reflexivity. }
    apply analyzeBlastOut_in_ext.
    + intros q _. unfold verdict.
      destruct (decide (q = qg)) as [-> | Hg].
      { rewrite lookup_insert_eq, (lookup_insert_ne comp) by congruence.
        rewrite Hqg. destruct (gold !! qg); reflexivity. }
      destruct (decide (q = qc)) as [-> | Hc].
      { rewrite lookup_insert_eq, (lookup_insert_ne gold) by congruence.
        rewrite Hqc. reflexivity. }
      destruct (Hlook q Hg Hc) as [-> ->]. reflexivity.
    + intros q _ Hv. unfold verdict in Hv. unfold hitCount.
      destruct (decide (q = qg)) as [-> | Hg].
      { rewrite lookup_insert_eq, (lookup_insert_ne comp), Hqg in Hv by congruence.
        discriminate. }
      destruct (decide (q = qc)) as [-> | Hc].
      { rewrite (lookup_insert_ne gold), Hqc in Hv by congruence. discriminate. }
      destruct (Hlook q Hg Hc) as [-> ->]. split; reflexivity.
Qed.

Lemma analyzeBlastOut_ignores_unshared_witness :
  intersection (<["G"%string := hits 7]> gold_10_4) (<["C"%string := hits 8]> comp_9_4)
    = intersection gold_10_4 comp_9_4 /\
  analyzeBlastOut_in (F:=float) ["Q1"; "Q2"]%string
      (<["G"%string := hits 7]> gold_10_4) (<["C"%string := hits 8]> comp_9_4)
    = analyzeBlastOut_in (F:=float) ["Q1"; "Q2"]%string gold_10_4 comp_9_4.
Proof.
  apply (analyzeBlastOut_ignores_unshared (F:=float) gold_10_4 comp_9_4
           "G" "C" (hits 7) (hits 8) ["Q1"; "Q2"]%string).
  - apply not_elem_of_dom. vm_compute. reflexivity.
  - apply not_elem_of_dom. vm_compute. reflexivity.
  - discriminate.
Defined.

(** X14. Only the number of hits of each query is read, never the hits: two
    pairs of result sets with the same keys and the same hit counts give the
    same run. *)
Theorem analyzeBlastOut_counts_only {F : Type} `{PyFloat F}
    (gold comp gold' comp' : ResultSet) (qs : list string) :
  (forall q, length <$> gold !! q = length <$> gold' !! q) ->
  (forall q, length <$> comp !! q = length <$> comp' !! q) ->
  intersection gold comp = intersection gold' comp' /\
  analyzeBlastOut_in (F:=F) qs gold comp = analyzeBlastOut_in (F:=F) qs gold' comp'.
Proof.
  intros Hg Hc.
  assert (Hhg : forall q, hitCount gold q = hitCount gold' q).
  { intros q. unfold hitCount, len. specialize (Hg q).
    destruct (gold !! q), (gold' !! q); cbn in Hg; congruence. }
  assert (Hhc : forall q, hitCount comp q = hitCount comp' q).
  { intros q. unfold hitCount, len. specialize (Hc q).
    destruct (comp !! q), (comp' !! q); cbn in Hc; congruence. }
  split.
  - unfold intersection. apply set_eq. intros q.
    rewrite !elem_of_intersection, !elem_of_dom, <- !not_eq_None_Some.
    specialize (Hg q). specialize (Hc q).
    destruct (gold !! q), (gold' !! q), (comp !! q), (comp' !! q);
      cbn in Hg, Hc; try discriminate; intuition congruence.
  - apply analyzeBlastOut_in_ext.
    + intros q _. unfold verdict, len. specialize (Hg q). specialize (Hc q).
      destruct (gold !! q), (gold' !! q), (comp !! q), (comp' !! q);
        cbn in Hg, Hc; try discriminate; try reflexivity.
      injection Hg as ->. injection Hc as ->. reflexivity.
    + intros q _ _. split; [apply Hhg | apply Hhc].
Qed.

Lemma analyzeBlastOut_counts_only_witness :
  intersection gold_10_4 comp_9_4
    = intersection gold_10_4
        {[ "Q1"%string := replicate 9 "other"%string; "Q2"%string := hits 4 ]} /\
  analyzeBlastOut_in (F:=float) ["Q1"; "Q2"]%string gold_10_4 comp_9_4
    = analyzeBlastOut_in (F:=float) ["Q1"; "Q2"]%string gold_10_4
        {[ "Q1"%string := replicate 9 "other"%string; "Q2"%string := hits 4 ]}.
Proof.
  apply (analyzeBlastOut_counts_only (F:=float) gold_10_4 comp_9_4 gold_10_4
           {[ "Q1"%string := replicate 9 "other"%string; "Q2"%string := hits 4 ]}
           ["Q1"; "Q2"]%string).
  - intros q. reflexivity.
  - intros q. unfold comp_9_4.
    destruct (decide (q = "Q1"%string)) as [-> | H1]; [vm_compute; reflexivity|].
    rewrite !lookup_insert_ne by congruence.
    destruct (decide (q = "Q2"%string)) as [-> | H2]; [vm_compute; reflexivity|].
    rewrite !lookup_singleton_ne by congruence. reflexivity.
Defined.

(** * The thresholds, in integers *)







(** * Perfect reports *)







(** * More on the derived output path *)

Module ConvertTabMore.
Import ConvertTab.

Lemma filenameRoot_dotless (p : string) :
  has_dot p = false -> filenameRoot p = p.
Proof.
  induction p as [|c r IH]; [reflexivity|]. cbn [has_dot].
  intros Hd. apply orb_false_iff in Hd as [Hc Hr].
  rewrite ConvertTabFacts.filenameRoot_cons, Hc, (IH Hr). reflexivity.
Qed.

Lemma filenameRoot_before_first_dot (pre post : string) :
  has_dot pre = false ->
  filenameRoot (String.append pre (String "." post)) = pre.
Proof.
  induction pre as [|c r IH]; intros Hd.
  - change (String.append EmptyString (String "." post)) with (String "." post).
    rewrite ConvertTabFacts.filenameRoot_cons. reflexivity.
  - cbn [has_dot] in Hd. apply orb_false_iff in Hd as [Hc Hr].
    change (String.append (String c r) (String "." post))
      with (String c (String.append r (String "." post))).
    rewrite ConvertTabFacts.filenameRoot_cons, Hc, (IH Hr). reflexivity.
Qed.

(** X18. With the output argument omitted, the path handed to the conversion
    is the part of the input path before its first dot, followed by ".xml";
    an input path without a dot is kept whole. So two inputs that agree up to
    their first dot are written to the same file, and an input of the form
    name.xml is written onto itself. *)
Theorem derived_output_before_first_dot (prog pre post : string) :
  has_dot pre = false ->
  main [prog; String.append pre (String "." post)]
    = Convert (String.append pre (String "." post)) "blast-tab"
              (String.append pre ".xml") "blast-xml" /\
  main [prog; pre] = Convert pre "blast-tab" (String.append pre ".xml") "blast-xml" /\
  outFileOf (main [prog; String.append pre ".xml"]) = Some (String.append pre ".xml").
Proof.
  intros Hd. unfold main.
  rewrite (filenameRoot_before_first_dot pre post Hd), (filenameRoot_dotless pre Hd).
  change ".xml"%string with (String "." "xml").
  rewrite (filenameRoot_before_first_dot pre "xml" Hd).
  repeat split; reflexivity.
Qed.

Lemma derived_output_before_first_dot_witness :
  main ["convert"; String.append "run7" (String "." "v2.txt")]%string
    = Convert (String.append "run7" (String "." "v2.txt")) "blast-tab"
              (String.append "run7" ".xml") "blast-xml" /\
  main ["convert"; "run7"]%string
    = Convert "run7" "blast-tab" (String.append "run7" ".xml") "blast-xml" /\
  outFileOf (main ["convert"; String.append "run7" ".xml"]%string)
    = Some (String.append "run7" ".xml").
Proof.
  apply (derived_output_before_first_dot "convert" "run7" "v2.txt"). reflexivity.
Defined.

Lemma split_cons (c : ascii) (r : string) :
  split "." (String c r) =
    if Ascii.eqb c "." then EmptyString :: split "." r
    else match split "." r with
         | piece :: pieces => String c piece :: pieces
         | [] => [String c EmptyString]
         end.
Proof. reflexivity. Qed.

(** X19. [split] cuts a path at its dots and loses nothing: joining the
    pieces with dots gives the path back, no piece contains a dot, and there
    is one piece more than there are dots; in particular there is always a
    first piece for [[0]] to take. *)
Theorem split_join_round_trip (s : string) :
  join_dot (split "." s) = s /\
  Forall (fun piece => has_dot piece = false) (split "." s) /\
  length (split "." s)
    = S (length (filter (fun c => c = "."%char) (list_ascii_of_string s))).
Proof.
  induction s as [|c r (IHj & IHd & IHl)].
  - repeat split. constructor; [reflexivity | constructor].
  - rewrite split_cons. destruct (Ascii.eqb c ".") eqn:Hc.
    + apply Ascii.eqb_eq in Hc. subst c. repeat split.
      * pose proof (ConvertTabFacts.split_nonempty "." r) as Hne.
        cbn [join_dot]. destruct (split "." r) as [|p ps] eqn:Hs; [congruence|].
        rewrite IHj. reflexivity.
      * constructor; [reflexivity | exact IHd].
      * cbn [length list_ascii_of_string]. rewrite filter_cons_True by reflexivity.
        cbn [length]. rewrite IHl. reflexivity.
    + pose proof (ConvertTabFacts.split_nonempty "." r) as Hne.
      destruct (split "." r) as [|p ps] eqn:Hs; [congruence|].
      apply Ascii.eqb_neq in Hc. repeat split.
      * cbn [join_dot] in *. destruct ps as [|p' ps'].
        -- rewrite IHj. reflexivity.
        -- rewrite <- IHj. reflexivity.
      * apply Forall_cons in IHd as [Hp Hps].
        constructor; [|exact Hps]. cbn [has_dot].
        rewrite Hp. apply Ascii.eqb_neq in Hc. rewrite Hc. reflexivity.
      * cbn [length list_ascii_of_string]. rewrite filter_cons_False by exact Hc.
        cbn [length] in IHl. exact IHl.
Qed.

(** X20. The conversion is attempted exactly when one or two arguments
    follow the program name; with any other number [main] only prints the
    usage line. The input is always read as blast-tab and written as
    blast-xml, and an output path given on the command line is used as it
    is. *)
Theorem main_action_by_argument_count (args : list string) :
  (main args = Usage <-> length args <> 2%nat /\ length args <> 3%nat) /\
  (forall inFile inFormat outFile outFormat,
     main args = Convert inFile inFormat outFile outFormat ->
     args !! 1%nat = Some inFile /\
     inFormat = "blast-tab"%string /\ outFormat = "blast-xml"%string /\
     (length args = 3%nat -> args !! 2%nat = Some outFile)).
Proof.
  destruct args as [|a0 [|a1 [|a2 [|a3 args]]]]; cbn; split;
    try (split; [intros _; lia | reflexivity]);
    try (split; [discriminate | intros [? ?]; lia]);
    try (intros ? ? ? ? Heq; discriminate Heq).
  - intros ? ? ? ? Heq. injection Heq as <- <- <- <-. repeat split. lia.
  - intros ? ? ? ? Heq. injection Heq as <- <- <- <-. repeat split.
Qed.

End ConvertTabMore.
